(** * Mergington High School activities API (src/app.py)

    A shallow embedding of the request handlers of [app.py]: the two
    module-level dictionaries [sessions] and [activities] become the
    fields of an explicit server state that every handler receives and
    returns, an [HTTPException] raised by a handler becomes the [Raise]
    branch of its result, and the token drawn from
    [secrets.token_urlsafe] becomes an input of [login]. *)

From stdpp Require Import gmap strings list fin_maps.
From Stdlib Require Import ZArith.

Local Open Scope string_scope.
Local Open Scope list_scope.

(** ** Data model *)

(** One value of the [activities] dictionary. *)
Record Activity := mkActivity {
  description : string;
  schedule : string;
  max_participants : Z;
  participants : list string
}.

(** One element of the list loaded from [teachers.json]. *)
Record Teacher := mkTeacher {
  teacher_username : string;
  teacher_password : string
}.

(** The pydantic model of the body of [POST /login]. *)
Record LoginRequest := mkLoginRequest {
  username : string;
  password : string
}.

(** The two module-level dictionaries. *)
Record Server := mkServer {
  sessions : gmap string string;
  activities : gmap string Activity
}.

Record HTTPException := mkHTTPException {
  status_code : Z;
  detail : string
}.

(** What a handler hands back to the framework. *)
Inductive Body :=
| Message (message : string)
| LoginOk (message user : string)
| AuthStatus (authenticated : bool) (user : option string)
| Catalog (acts : gmap string Activity)
| RedirectResponse (url : string).

Inductive CookieAction :=
| SetCookie (key value : string) (httponly : bool) (samesite : string)
| DeleteCookie (key : string).

Record Response := mkResponse {
  body : Body;
  cookie : option CookieAction
}.

(** A handler either returns a value or raises. *)
Inductive outcome (A : Type) :=
| Return (a : A)
| Raise (e : HTTPException).
Arguments Return {A} a.
Arguments Raise {A} e.

(** The errors the handlers raise, under the names of the error taxonomy. *)
Definition Unauthenticated : HTTPException :=
  mkHTTPException 401 "Authentication required".
Definition InvalidCredentials : HTTPException :=
  mkHTTPException 401 "Invalid credentials".
Definition NotFound : HTTPException :=
  mkHTTPException 404 "Activity not found".
Definition AlreadyRegistered : HTTPException :=
  mkHTTPException 400 "Student is already signed up".
Definition NotRegistered : HTTPException :=
  mkHTTPException 400 "Student is not signed up for this activity".
(** An exception other than [HTTPException] escaping a handler: the
    framework answers 500. Only [list.remove] could raise one. *)
Definition ValueError : HTTPException :=
  mkHTTPException 500 "Internal Server Error".

(** ** Python primitives used by the handlers *)

(** Truth value of a [str]: false exactly for the empty string. *)
Definition truthy (s : string) : bool :=
  match s with
  | EmptyString => false
  | String _ _ => true
  end.

(** [x in l] on a list. *)
Definition list_contains (x : string) (l : list string) : bool :=
  bool_decide (x ∈ l).

(** [l.append(x)]. *)
Definition list_append (l : list string) (x : string) : list string :=
  l ++ [x].

(** [l.remove(x)]: drops the first element equal to [x]; [None] stands
    for the [ValueError] raised when there is none. *)
Fixpoint list_remove_first (x : string) (l : list string) : option (list string) :=
  match l with
  | [] => None
  | y :: l' =>
      if decide (x = y) then Some l'
      else match list_remove_first x l' with
           | Some r => Some (y :: r)
           | None => None
           end
  end.

(** Assignment to [activity["participants"]]'s contents: the activity
    object is mutated in place, its other keys are not touched. *)
Definition with_participants (a : Activity) (ps : list string) : Activity :=
  mkActivity (description a) (schedule a) (max_participants a) ps.

Definition set_sessions (st : Server) (s : gmap string string) : Server :=
  mkServer s (activities st).

Definition set_activities (st : Server) (c : gmap string Activity) : Server :=
  mkServer (sessions st) c.

(** ** Authentication dependency *)

Definition get_current_user (st : Server) (session_token : option string)
  : option string :=
  match session_token with
  | Some t =>
      if truthy t && bool_decide (t ∈ dom (sessions st))
      then sessions st !! t
      else None
  | None => None
  end.

Definition require_auth (st : Server) (session_token : option string)
  : outcome string :=
  match get_current_user st session_token with
  | Some user => if truthy user then Return user else Raise Unauthenticated
  | None => Raise Unauthenticated
  end.

(** ** The seeded catalog *)

Definition activities_init : gmap string Activity :=
  list_to_map [
    ("Chess Club",
      mkActivity "Learn strategies and compete in chess tournaments"
        "Fridays, 3:30 PM - 5:00 PM" 12
        ["michael@mergington.edu"; "daniel@mergington.edu"]);
    ("Programming Class",
      mkActivity "Learn programming fundamentals and build software projects"
        "Tuesdays and Thursdays, 3:30 PM - 4:30 PM" 20
        ["emma@mergington.edu"; "sophia@mergington.edu"]);
    ("Gym Class",
      mkActivity "Physical education and sports activities"
        "Mondays, Wednesdays, Fridays, 2:00 PM - 3:00 PM" 30
        ["john@mergington.edu"; "olivia@mergington.edu"]);
    ("Soccer Team",
      mkActivity "Join the school soccer team and compete in matches"
        "Tuesdays and Thursdays, 4:00 PM - 5:30 PM" 22
        ["liam@mergington.edu"; "noah@mergington.edu"]);
    ("Basketball Team",
      mkActivity "Practice and play basketball with the school team"
        "Wednesdays and Fridays, 3:30 PM - 5:00 PM" 15
        ["ava@mergington.edu"; "mia@mergington.edu"]);
    ("Art Club",
      mkActivity "Explore your creativity through painting and drawing"
        "Thursdays, 3:30 PM - 5:00 PM" 15
        ["amelia@mergington.edu"; "harper@mergington.edu"]);
    ("Drama Club",
      mkActivity "Act, direct, and produce plays and performances"
        "Mondays and Wednesdays, 4:00 PM - 5:30 PM" 20
        ["ella@mergington.edu"; "scarlett@mergington.edu"]);
    ("Math Club",
      mkActivity "Solve challenging problems and participate in math competitions"
        "Tuesdays, 3:30 PM - 4:30 PM" 10
        ["james@mergington.edu"; "benjamin@mergington.edu"]);
    ("Debate Team",
      mkActivity "Develop public speaking and argumentation skills"
        "Fridays, 4:00 PM - 5:30 PM" 12
        ["charlotte@mergington.edu"; "henry@mergington.edu"])
  ].

(** The state right after the module is loaded. *)
Definition server_init : Server := mkServer ∅ activities_init.

(** ** Handlers *)

Definition root : Response :=
  mkResponse (RedirectResponse "/static/index.html") None.

(** [login]: the loop over [teachers]. [session_token] is the value
    [secrets.token_urlsafe(32)] yields in this call; it is only used
    when a teacher matches. *)
Fixpoint login (teachers : list Teacher) (credentials : LoginRequest)
    (session_token : string) (st : Server) : Server * outcome Response :=
  match teachers with
  | teacher :: rest =>
      if bool_decide (teacher_username teacher = username credentials)
         && bool_decide (teacher_password teacher = password credentials)
      then
        (set_sessions st (<[session_token := username credentials]> (sessions st)),
         Return (mkResponse
                   (LoginOk "Login successful" (username credentials))
                   (Some (SetCookie "session_token" session_token true "lax"))))
      else login rest credentials session_token st
  | [] => (st, Raise InvalidCredentials)
  end.

Definition logout (session_token : option string) (st : Server)
  : Server * outcome Response :=
  let st' :=
    match session_token with
    | Some t =>
        if truthy t && bool_decide (t ∈ dom (sessions st))
        then set_sessions st (delete t (sessions st))
        else st
    | None => st
    end in
  (st', Return (mkResponse (Message "Logged out successfully")
                           (Some (DeleteCookie "session_token")))).

Definition auth_status (user : option string) : Response :=
  match user with
  | Some u =>
      if truthy u then mkResponse (AuthStatus true (Some u)) None
      else mkResponse (AuthStatus false None) None
  | None => mkResponse (AuthStatus false None) None
  end.

Definition get_activities (st : Server) : Response :=
  mkResponse (Catalog (activities st)) None.

(** Body of [signup_for_activity]; [user] is what [require_auth] gave. *)
Definition signup_for_activity (activity_name email user : string) (st : Server)
  : Server * outcome Response :=
  match activities st !! activity_name with
  | None => (st, Raise NotFound)
  | Some activity =>
      if list_contains email (participants activity)
      then (st, Raise AlreadyRegistered)
      else
        (set_activities st
           (<[activity_name :=
                with_participants activity
                  (list_append (participants activity) email)]> (activities st)),
         Return (mkResponse
                   (Message ("Signed up " +:+ email +:+ " for " +:+ activity_name))
                   None))
  end.

(** Body of [unregister_from_activity]. *)
Definition unregister_from_activity (activity_name email user : string)
    (st : Server) : Server * outcome Response :=
  match activities st !! activity_name with
  | None => (st, Raise NotFound)
  | Some activity =>
      if negb (list_contains email (participants activity))
      then (st, Raise NotRegistered)
      else
        match list_remove_first email (participants activity) with
        | None => (st, Raise ValueError)
        | Some ps =>
            (set_activities st
               (<[activity_name := with_participants activity ps]> (activities st)),
             Return (mkResponse
                       (Message ("Unregistered " +:+ email +:+ " from "
                                 +:+ activity_name))
                       None))
        end
  end.

(** ** Routing

    A request as the framework delivers it: the cookie is optional, the
    path and query parameters are strings. [Depends(require_auth)] is
    resolved before the handler's body runs. *)
Inductive Request :=
| GetRoot
| PostLogin (credentials : LoginRequest) (drawn_token : string)
| PostLogout (session_token : option string)
| GetAuthStatus (session_token : option string)
| GetActivities
| PostSignup (session_token : option string) (activity_name email : string)
| DeleteUnregister (session_token : option string) (activity_name email : string).

Definition with_auth (session_token : option string)
    (handler : string → Server → Server * outcome Response) (st : Server)
  : Server * outcome Response :=
  match require_auth st session_token with
  | Return user => handler user st
  | Raise e => (st, Raise e)
  end.

Definition signup_endpoint (session_token : option string)
    (activity_name email : string) : Server → Server * outcome Response :=
  with_auth session_token (signup_for_activity activity_name email).

Definition unregister_endpoint (session_token : option string)
    (activity_name email : string) : Server → Server * outcome Response :=
  with_auth session_token (unregister_from_activity activity_name email).

Definition handle (teachers : list Teacher) (r : Request) (st : Server)
  : Server * outcome Response :=
  match r with
  | GetRoot => (st, Return root)
  | PostLogin credentials tok => login teachers credentials tok st
  | PostLogout tok => logout tok st
  | GetAuthStatus tok => (st, Return (auth_status (get_current_user st tok)))
  | GetActivities => (st, Return (get_activities st))
  | PostSignup tok name email => signup_endpoint tok name email st
  | DeleteUnregister tok name email => unregister_endpoint tok name email st
  end.

(** The state after serving a sequence of requests, oldest first. *)
Fixpoint serve (teachers : list Teacher) (rs : list Request) (st : Server) : Server :=
  match rs with
  | [] => st
  | r :: rs' => serve teachers rs' (fst (handle teachers r st))
  end.

(** ** Vocabulary of the statements *)

(** The request carries no usable session: no cookie, or a token that is
    not a key of the session store. *)
Definition token_unknown (s : gmap string string) (tok : option string) : Prop :=
  match tok with
  | None => True
  | Some t => t ∉ dom s
  end.

(** A handler's effect on the catalog: nothing, or one roster replaced. *)
Inductive catalog_step (c : gmap string Activity) : gmap string Activity → Prop :=
| catalog_same : catalog_step c c
| catalog_signup name a email :
    c !! name = Some a → email ∉ participants a →
    catalog_step c (<[name := with_participants a (list_append (participants a) email)]> c)
| catalog_unregister name a email ps :
    c !! name = Some a → list_remove_first email (participants a) = Some ps →
    catalog_step c (<[name := with_participants a ps]> c).

(** No activity lists an email twice. *)
Definition roster_unique (c : gmap string Activity) : Prop :=
  map_Forall (λ _ a, NoDup (participants a)) c.

(** The same activity with its capacity blanked out. *)
Definition erase_capacity (a : Activity) : Activity :=
  mkActivity (description a) (schedule a) 0 (participants a).

Definition erase_capacities (st : Server) : Server :=
  mkServer (sessions st) (erase_capacity <$> activities st).

(** A response with the capacities blanked out: only the catalog listing
    of [get_activities] shows them. *)
Definition erase_body (b : Body) : Body :=
  match b with
  | Catalog c => Catalog (erase_capacity <$> c)
  | _ => b
  end.

Definition erase_outcome (o : outcome Response) : outcome Response :=
  match o with
  | Return r => Return (mkResponse (erase_body (body r)) (cookie r))
  | Raise e => Raise e
  end.

Definition erase_result (x : Server * outcome Response)
  : Server * outcome Response :=
  (erase_capacities (fst x), erase_outcome (snd x)).

(** Some entry of the credential list has exactly this username and
    exactly this password. *)
Definition credentials_match (teachers : list Teacher)
    (credentials : LoginRequest) : Prop :=
  Exists (λ teacher,
            teacher_username teacher = username credentials
            ∧ teacher_password teacher = password credentials) teachers.

(** What a successful login leaves and answers. *)
Definition login_success (credentials : LoginRequest) (tok : string) (st : Server)
  : Server * outcome Response :=
  (mkServer (<[tok := username credentials]> (sessions st)) (activities st),
   Return (mkResponse (LoginOk "Login successful" (username credentials))
             (Some (SetCookie "session_token" tok true "lax")))).

(** The tokens drawn by the logins among a sequence of requests. *)
Fixpoint drawn_tokens (rs : list Request) : list string :=
  match rs with
  | [] => []
  | PostLogin _ tok :: rs' => tok :: drawn_tokens rs'
  | _ :: rs' => drawn_tokens rs'
  end.

(** The keys of an activity that no handler assigns to. *)
Definition metadata (a : Activity) : string * string * Z :=
  (description a, schedule a, max_participants a).

(** Every open session carries the username of some entry of the
    credential list. *)
Definition sessions_of_teachers (teachers : list Teacher)
    (s : gmap string string) : Prop :=
  map_Forall (λ _ u, Exists (λ teacher, teacher_username teacher = u) teachers) s.

(** The activity a signup or unregister request names. *)
Definition roster_target (r : Request) : option string :=
  match r with
  | PostSignup _ name _ | DeleteUnregister _ name _ => Some name
  | _ => None
  end.

(** The request is no login, or a login that no entry of the credential
    list matches. *)
Definition login_fails (teachers : list Teacher) (r : Request) : bool :=
  match r with
  | PostLogin credentials _ =>
      bool_decide (¬ credentials_match teachers credentials)
  | _ => true
  end.

(** The tokens carried by the logouts among a sequence of requests. *)
Fixpoint logout_tokens (rs : list Request) : list string :=
  match rs with
  | [] => []
  | PostLogout (Some t) :: rs' => t :: logout_tokens rs'
  | _ :: rs' => logout_tokens rs'
  end.

(** ** A session to run the handlers on *)

(** A staff account and a short session used to exercise the theorems:
    log in, sign a new student up twice, remove a seeded one, log out. *)
Definition demo_teachers : list Teacher := [mkTeacher "staff" "s3cret"].

Definition demo_requests : list Request :=
  [ PostLogin (mkLoginRequest "staff" "s3cret") "tok-1";
    PostSignup (Some "tok-1") "Chess Club" "new@mergington.edu";
    PostSignup (Some "tok-1") "Chess Club" "new@mergington.edu";
    DeleteUnregister (Some "tok-1") "Chess Club" "michael@mergington.edu";
    PostLogout (Some "tok-1") ].

(** The seeded server after a login that drew the token [tok-1]. *)
Definition demo_logged_in : Server :=
  serve demo_teachers [PostLogin (mkLoginRequest "staff" "s3cret") "tok-1"]
    server_init.

(** A logged-in teacher fills the Math Club up to its capacity of 10. *)
Definition fill_math_club : list Request :=
  PostLogin (mkLoginRequest "staff" "s3cret") "tok-1"
  :: map (PostSignup (Some "tok-1") "Math Club")
       ["s1@mergington.edu"; "s2@mergington.edu"; "s3@mergington.edu";
        "s4@mergington.edu"; "s5@mergington.edu"; "s6@mergington.edu";
        "s7@mergington.edu"; "s8@mergington.edu"].

Definition math_club_full : Server :=
  serve demo_teachers fill_math_club server_init.

Definition math_club_full_entry : Activity :=
  mkActivity "Solve challenging problems and participate in math competitions"
    "Tuesdays, 3:30 PM - 4:30 PM" 10
    ["james@mergington.edu"; "benjamin@mergington.edu";
     "s1@mergington.edu"; "s2@mergington.edu"; "s3@mergington.edu";
     "s4@mergington.edu"; "s5@mergington.edu"; "s6@mergington.edu";
     "s7@mergington.edu"; "s8@mergington.edu"].

(** The state after the demo teacher signed a new student up for the
    Chess Club. *)
Definition demo_signed_up : Server :=
  fst (signup_endpoint (Some "tok-1") "Chess Club" "new@mergington.edu"
         demo_logged_in).

(** Case analysis on a request: one goal per route of [handle]. *)
Ltac by_route r :=
  destruct r as [|cr tok|tok|tok| |tok name email|tok name email];
  cbn [handle fst].

(** ** Facts about the Python primitives *)

Lemma truthy_true (s : string) : truthy s = true ↔ s ≠ EmptyString.
Proof. destruct s; simpl; split; congruence. Qed.

Lemma truthy_false (s : string) : truthy s = false ↔ s = EmptyString.
Proof. destruct s; simpl; split; congruence. Qed.

Lemma list_contains_true (x : string) (l : list string) :
  list_contains x l = true ↔ x ∈ l.
Proof. unfold list_contains. apply bool_decide_eq_true. Qed.

Lemma list_contains_false (x : string) (l : list string) :
  list_contains x l = false ↔ x ∉ l.
Proof. unfold list_contains. apply bool_decide_eq_false. Qed.

(** [remove] raises exactly when the element is missing. *)
Lemma list_remove_first_None (x : string) (l : list string) :
  list_remove_first x l = None ↔ x ∉ l.
Proof.
  induction l as [|y l IH]; simpl.
  - split; [intros _; apply not_elem_of_nil | done].
  - destruct (decide (x = y)) as [->|Hne].
    + split; [done | intros H; exfalso; apply H; left].
    + rewrite not_elem_of_cons.
      destruct (list_remove_first x l) eqn:E.
      * split; [done | intros [_ H]; apply IH in H; done].
      * split; [intros _; split; [done | by apply IH] | done].
Qed.

(** [remove] cuts out the first occurrence and nothing else. *)
Lemma list_remove_first_Some (x : string) (l r : list string) :
  list_remove_first x l = Some r ↔
  ∃ l1 l2, l = l1 ++ x :: l2 ∧ (x ∉ l1) ∧ r = l1 ++ l2.
Proof.
  revert r. induction l as [|y l IH]; intros r; simpl.
  - split; [done | intros (l1 & l2 & H & _); by destruct l1].
  - destruct (decide (x = y)) as [->|Hne].
    + split.
      * intros [= <-]. exists [], l. split_and!; [done | apply not_elem_of_nil | done].
      * intros ([|z l1] & l2 & H & Hnot & ->); simplify_eq/=; [done|].
        exfalso. apply Hnot. left.
    + destruct (list_remove_first x l) as [r'|] eqn:E.
      * destruct (proj1 (IH r') eq_refl) as (l1 & l2 & -> & Hnot & ->).
        split.
        -- intros [= <-]. exists (y :: l1), l2.
           split_and!; [done | by apply not_elem_of_cons | done].
        -- intros ([|z l1'] & l2' & H & Hnot' & ->); simplify_eq/=.
           f_equal. assert (Some (l1 ++ l2) = Some (l1' ++ l2')) as [= ->]; [|done].
           apply IH. exists l1', l2'. split_and!; [done | | done].
           by apply not_elem_of_cons in Hnot' as [_ ?].
      * split; [done|].
        intros ([|z l1'] & l2' & H & Hnot' & ->); simplify_eq/=.
        apply list_remove_first_None in E. exfalso. apply E.
        apply elem_of_app. right. left.
Qed.

Lemma list_remove_first_elem (x : string) (l : list string) :
  x ∈ l → ∃ l1 l2, l = l1 ++ x :: l2 ∧ (x ∉ l1)
                   ∧ list_remove_first x l = Some (l1 ++ l2).
Proof.
  intros Hin. destruct (list_remove_first x l) as [r|] eqn:E.
  - apply list_remove_first_Some in E as (l1 & l2 & -> & Hnot & ->). eauto.
  - apply list_remove_first_None in E. done.
Qed.

(** Removing what was just appended gives the list back. *)
Lemma list_remove_first_append (x : string) (l : list string) :
  x ∉ l → list_remove_first x (list_append l x) = Some l.
Proof.
  intros Hnot. apply list_remove_first_Some. exists l, [].
  unfold list_append. by rewrite app_nil_r.
Qed.

Lemma list_append_NoDup (x : string) (l : list string) :
  NoDup l → x ∉ l → NoDup (list_append l x).
Proof.
  intros Hnd Hnot. unfold list_append. apply NoDup_app. split_and!; [done | | ].
  - intros y Hy Hy'. apply list_elem_of_singleton in Hy' as ->. done.
  - apply NoDup_singleton.
Qed.

Lemma list_remove_first_NoDup (x : string) (l r : list string) :
  NoDup l → list_remove_first x l = Some r → NoDup r ∧ x ∉ r.
Proof.
  intros Hnd Hr. apply list_remove_first_Some in Hr as (l1 & l2 & -> & Hnot & ->).
  apply NoDup_app in Hnd as (Hnd1 & Hdisj & Hnd2).
  apply NoDup_cons in Hnd2 as [Hx Hnd2]. split.
  - apply NoDup_app. split_and!; [done | | done].
    intros y Hy Hy'. apply (Hdisj y Hy). by right.
  - rewrite elem_of_app. tauto.
Qed.

(** ** The authentication gate *)

(** A token resolves to a user exactly when it is a non-empty key of the
    session store. *)
Lemma get_current_user_Some (st : Server) (tok : option string) (u : string) :
  get_current_user st tok = Some u ↔
  ∃ t, tok = Some t ∧ t ≠ EmptyString ∧ sessions st !! t = Some u.
Proof.
  unfold get_current_user. destruct tok as [t|].
  - destruct (truthy t) eqn:Ht; simpl.
    + apply truthy_true in Ht. case_bool_decide as Hd.
      * split; [by eauto|]. by intros (t' & [= <-] & _ & H).
      * apply not_elem_of_dom in Hd. split; [done|].
        intros (t' & [= <-] & _ & H). congruence.
    + apply truthy_false in Ht. split; [done|].
      intros (t' & [= <-] & Hne & _). done.
  - split; [done|]. by intros (t' & [=] & _).
Qed.

Lemma get_current_user_unknown (st : Server) (t : string) :
  sessions st !! t = None → get_current_user st (Some t) = None.
Proof.
  intros Hnone. destruct (get_current_user st (Some t)) as [u|] eqn:E; [|done].
  apply get_current_user_Some in E as (t' & [= <-] & _ & E). congruence.
Qed.

Lemma require_auth_Return (st : Server) (tok : option string) (u : string) :
  require_auth st tok = Return u ↔
  ∃ t, tok = Some t ∧ t ≠ EmptyString ∧ sessions st !! t = Some u
       ∧ u ≠ EmptyString.
Proof.
  unfold require_auth. destruct (get_current_user st tok) as [u'|] eqn:E.
  - apply get_current_user_Some in E as (t & -> & Ht & Hu').
    destruct (truthy u') eqn:Hu.
    + apply truthy_true in Hu. split.
      * intros [= <-]. eauto.
      * intros (t' & [= <-] & _ & Hl & _). congruence.
    + apply truthy_false in Hu. split; [done|].
      intros (t' & [= <-] & _ & Hl & Hne). congruence.
  - split; [done|]. intros (t & -> & Ht & Hl & _).
    assert (get_current_user st (Some t) = Some u) as E'
      by (apply get_current_user_Some; eauto).
    congruence.
Qed.

(** The gate has one way to fail. *)
Lemma require_auth_Raise (st : Server) (tok : option string) (e : HTTPException) :
  require_auth st tok = Raise e → e = Unauthenticated.
Proof.
  unfold require_auth. destruct (get_current_user st tok) as [u|];
    [destruct (truthy u)|]; congruence.
Qed.

(** The gate reads the session store only. *)
Lemma require_auth_sessions (st st' : Server) (tok : option string) :
  sessions st' = sessions st → require_auth st' tok = require_auth st tok.
Proof. intros H. unfold require_auth, get_current_user. by rewrite H. Qed.

Lemma with_auth_Return (st : Server) (tok : option string) (u : string)
    (handler : string → Server → Server * outcome Response) :
  require_auth st tok = Return u → with_auth tok handler st = handler u st.
Proof. intros H. unfold with_auth. by rewrite H. Qed.

Lemma require_auth_unknown (st : Server) (tok : option string) :
  token_unknown (sessions st) tok → require_auth st tok = Raise Unauthenticated.
Proof.
  intros H. unfold require_auth. destruct tok as [t|]; [|done].
  rewrite get_current_user_unknown; [done|]. by apply not_elem_of_dom.
Qed.

(** ** Roster service *)

(** C1. For every server state, activity name and email, the body of
    [signup_for_activity] raises NotFound (404) when the name is not a key
    of [activities]; otherwise raises AlreadyRegistered (400) when the
    email is in the activity's participants; otherwise it returns the
    success message and the activity's participants become the old list
    followed by the email, the old entries keeping their positions. The
    two failures leave the state as it was. *)
Theorem signup_for_activity_spec (st : Server) (activity_name email user : string) :
  match activities st !! activity_name with
  | None =>
      signup_for_activity activity_name email user st = (st, Raise NotFound)
  | Some activity =>
      if decide (email ∈ participants activity)
      then signup_for_activity activity_name email user st
           = (st, Raise AlreadyRegistered)
      else ∃ st' activity',
          signup_for_activity activity_name email user st
          = (st', Return (mkResponse
                            (Message ("Signed up " +:+ email +:+ " for "
                                      +:+ activity_name)) None))
          ∧ activities st' !! activity_name = Some activity'
          ∧ participants activity' = participants activity ++ [email]
          ∧ (∀ i x, participants activity !! i = Some x →
                    participants activity' !! i = Some x)
          ∧ last (participants activity') = Some email
  end.
Proof.
  unfold signup_for_activity.
  destruct (activities st !! activity_name) as [activity|] eqn:Hact; [|done].
  destruct (decide (email ∈ participants activity)) as [Hin|Hnot].
  - apply list_contains_true in Hin. by rewrite Hin.
  - apply list_contains_false in Hnot. rewrite Hnot.
    eexists _, _. split; [reflexivity|]. simpl. rewrite lookup_insert_eq.
    split; [reflexivity|]. simpl. unfold list_append. split_and!.
    + done.
    + intros i x Hi. by apply lookup_app_l_Some.
    + apply last_snoc.
Qed.

(** C2. For every server state, activity name and email, the body of
    [unregister_from_activity] raises NotFound (404) when the name is not
    a key of [activities]; otherwise raises NotRegistered (400) when the
    email is not in the activity's participants; otherwise it returns the
    success message and the participants list loses its first entry equal
    to the email and nothing else. [list.remove] never raises here. *)
Theorem unregister_from_activity_spec (st : Server)
    (activity_name email user : string) :
  match activities st !! activity_name with
  | None =>
      unregister_from_activity activity_name email user st = (st, Raise NotFound)
  | Some activity =>
      if decide (email ∈ participants activity)
      then ∃ st' activity' l1 l2,
          unregister_from_activity activity_name email user st
          = (st', Return (mkResponse
                            (Message ("Unregistered " +:+ email +:+ " from "
                                      +:+ activity_name)) None))
          ∧ activities st' !! activity_name = Some activity'
          ∧ participants activity = l1 ++ email :: l2
          ∧ (email ∉ l1)
          ∧ participants activity' = l1 ++ l2
      else unregister_from_activity activity_name email user st
           = (st, Raise NotRegistered)
  end.
Proof.
  unfold unregister_from_activity.
  destruct (activities st !! activity_name) as [activity|] eqn:Hact; [|done].
  destruct (decide (email ∈ participants activity)) as [Hin|Hnot].
  - destruct (list_remove_first_elem _ _ Hin) as (l1 & l2 & Hps & Hl1 & Hrm).
    apply list_contains_true in Hin. rewrite Hin, Hrm. simpl.
    eexists _, _, l1, l2. split; [reflexivity|]. simpl.
    rewrite lookup_insert_eq. by split_and!.
  - apply list_contains_false in Hnot. by rewrite Hnot.
Qed.

(** C3. When the request has no session cookie, or its token is not a
    key of the session store, both [signup_for_activity] and
    [unregister_from_activity] answer 401 for every activity name and
    email and every catalog, and the state (session store and catalog) is
    the one before the request. *)
Theorem unauthenticated_request_rejected (s : gmap string string)
    (c : gmap string Activity) (tok : option string)
    (activity_name email : string) :
  token_unknown s tok →
  signup_endpoint tok activity_name email (mkServer s c)
  = (mkServer s c, Raise Unauthenticated)
  ∧ unregister_endpoint tok activity_name email (mkServer s c)
    = (mkServer s c, Raise Unauthenticated)
  ∧ status_code Unauthenticated = 401%Z.
Proof.
  intros Hunk. unfold signup_endpoint, unregister_endpoint, with_auth.
  by rewrite (require_auth_unknown (mkServer s c) tok Hunk).
Qed.

(** No cookie, and a stale cookie, against the seeded server with a valid
    activity and a valid new email. *)
Lemma unauthenticated_request_rejected_witness :
  (signup_endpoint None "Chess Club" "new@mergington.edu" server_init
   = (server_init, Raise Unauthenticated)
   ∧ unregister_endpoint None "Chess Club" "new@mergington.edu" server_init
     = (server_init, Raise Unauthenticated)
   ∧ status_code Unauthenticated = 401%Z)
  ∧ (signup_endpoint (Some "stale") "Chess Club" "michael@mergington.edu"
       server_init
     = (server_init, Raise Unauthenticated)
     ∧ unregister_endpoint (Some "stale") "Chess Club" "michael@mergington.edu"
         server_init
       = (server_init, Raise Unauthenticated)
     ∧ status_code Unauthenticated = 401%Z).
Proof.
  split.
  - apply (unauthenticated_request_rejected ∅ activities_init None). exact I.
  - apply (unauthenticated_request_rejected ∅ activities_init (Some "stale")).
    simpl. rewrite dom_empty_L. apply not_elem_of_empty.
Defined.

(** The endpoint is the body once the gate lets the request through. *)
Lemma signup_endpoint_authenticated (st : Server) (tok : option string)
    (activity_name email u : string) :
  require_auth st tok = Return u →
  signup_endpoint tok activity_name email st
  = signup_for_activity activity_name email u st.
Proof. apply with_auth_Return. Qed.

Lemma unregister_endpoint_authenticated (st : Server) (tok : option string)
    (activity_name email u : string) :
  require_auth st tok = Return u →
  unregister_endpoint tok activity_name email st
  = unregister_from_activity activity_name email u st.
Proof. apply with_auth_Return. Qed.

(** ** How each handler moves the state *)

Lemma signup_for_activity_step (st : Server) (activity_name email user : string) :
  sessions (fst (signup_for_activity activity_name email user st)) = sessions st
  ∧ catalog_step (activities st)
      (activities (fst (signup_for_activity activity_name email user st))).
Proof.
  unfold signup_for_activity.
  destruct (activities st !! activity_name) as [a|] eqn:Ha;
    [|split; [done | constructor]].
  destruct (list_contains email (participants a)) eqn:Hc;
    [split; [done | constructor]|].
  split; [done|]. simpl. apply catalog_signup; [done|].
  by apply list_contains_false.
Qed.

Lemma unregister_from_activity_step (st : Server)
    (activity_name email user : string) :
  sessions (fst (unregister_from_activity activity_name email user st))
  = sessions st
  ∧ catalog_step (activities st)
      (activities (fst (unregister_from_activity activity_name email user st))).
Proof.
  unfold unregister_from_activity.
  destruct (activities st !! activity_name) as [a|] eqn:Ha;
    [|split; [done | constructor]].
  destruct (list_contains email (participants a)) eqn:Hc; simpl;
    [|split; [done | constructor]].
  destruct (list_remove_first email (participants a)) as [ps|] eqn:Hr;
    [|split; [done | constructor]].
  split; [done|]. simpl. by eapply catalog_unregister.
Qed.

Lemma with_auth_step (tok : option string)
    (handler : string → Server → Server * outcome Response) (st : Server)
    (P : Server → Prop) :
  P st → (∀ u, P (fst (handler u st))) → P (fst (with_auth tok handler st)).
Proof.
  intros Hst Hh. unfold with_auth. destruct (require_auth st tok); [apply Hh | done].
Qed.

Lemma login_activities (teachers : list Teacher) (credentials : LoginRequest)
    (tok : string) (st : Server) :
  activities (fst (login teachers credentials tok st)) = activities st.
Proof.
  induction teachers as [|t ts IH]; simpl; [done|].
  by destruct (_ && _).
Qed.

Lemma logout_activities (tok : option string) (st : Server) :
  activities (fst (logout tok st)) = activities st.
Proof.
  unfold logout. simpl. destruct tok as [t|]; [|done]. by destruct (_ && _).
Qed.

(** Every request leaves the catalog alone or replaces one roster. *)
Lemma handle_catalog_step (teachers : list Teacher) (r : Request) (st : Server) :
  catalog_step (activities st) (activities (fst (handle teachers r st))).
Proof.
  by_route r; try constructor.
  - rewrite login_activities. constructor.
  - rewrite logout_activities. constructor.
  - unfold signup_endpoint. apply with_auth_step; [constructor|].
    intros u. apply signup_for_activity_step.
  - unfold unregister_endpoint. apply with_auth_step; [constructor|].
    intros u. apply unregister_from_activity_step.
Qed.

(** ** The roster invariant *)

Lemma roster_unique_init : roster_unique activities_init.
Proof.
  unfold roster_unique. apply (bool_decide_unpack _). by vm_compute.
Qed.

Lemma catalog_step_roster_unique (c c' : gmap string Activity) :
  catalog_step c c' → roster_unique c → roster_unique c'.
Proof.
  intros Hstep Hu. destruct Hstep as [|name a email Ha Hnot|name a email ps Ha Hr];
    [done| |]; apply map_Forall_insert_2; try done; simpl.
  - apply list_append_NoDup; [|done]. exact (Hu _ _ Ha).
  - eapply list_remove_first_NoDup; [|done]. exact (Hu _ _ Ha).
Qed.

Lemma handle_roster_unique (teachers : list Teacher) (r : Request) (st : Server) :
  roster_unique (activities st) →
  roster_unique (activities (fst (handle teachers r st))).
Proof. apply catalog_step_roster_unique, handle_catalog_step. Qed.

Lemma serve_roster_unique (teachers : list Teacher) (rs : list Request)
    (st : Server) :
  roster_unique (activities st) →
  roster_unique (activities (serve teachers rs st)).
Proof.
  revert st. induction rs as [|r rs IH]; intros st Hst; simpl; [done|].
  by apply IH, handle_roster_unique.
Qed.

(** C4. The seeded catalog lists no email twice within an activity; each
    request (login, logout, signup, unregister, and the read-only ones),
    served in a state where that holds, leaves a state where it holds;
    hence it holds in every state the server reaches from the seed. *)
Theorem roster_unique_invariant (teachers : list Teacher) :
  roster_unique activities_init
  ∧ (∀ r st, roster_unique (activities st) →
             roster_unique (activities (fst (handle teachers r st))))
  ∧ (∀ rs name a,
       activities (serve teachers rs server_init) !! name = Some a →
       NoDup (participants a)).
Proof.
  split_and!.
  - apply roster_unique_init.
  - intros r st. apply handle_roster_unique.
  - intros rs name a Ha.
    exact (serve_roster_unique teachers rs server_init roster_unique_init _ _ Ha).
Qed.

Lemma roster_unique_invariant_witness :
  roster_unique activities_init
  ∧ roster_unique
      (activities
         (fst (handle demo_teachers
                 (PostSignup (Some "tok-1") "Chess Club" "new@mergington.edu")
                 demo_logged_in)))
  ∧ activities (serve demo_teachers demo_requests server_init) !! "Chess Club"
    = Some (mkActivity "Learn strategies and compete in chess tournaments"
              "Fridays, 3:30 PM - 5:00 PM" 12
              ["daniel@mergington.edu"; "new@mergington.edu"])
  ∧ NoDup ["daniel@mergington.edu"; "new@mergington.edu"].
Proof.
  destruct (roster_unique_invariant demo_teachers) as (Hinit & Hstep & Hreach).
  split_and!.
  - exact Hinit.
  - apply Hstep. unfold demo_logged_in. simpl. exact Hinit.
  - vm_compute. reflexivity.
  - apply (Hreach demo_requests "Chess Club"
             (mkActivity "Learn strategies and compete in chess tournaments"
                "Fridays, 3:30 PM - 5:00 PM" 12
                ["daniel@mergington.edu"; "new@mergington.edu"])).
    vm_compute. reflexivity.
Defined.

(** ** Failures change nothing *)

Lemma login_Raise (teachers : list Teacher) (credentials : LoginRequest)
    (tok : string) (st st' : Server) (e : HTTPException) :
  login teachers credentials tok st = (st', Raise e) →
  st' = st ∧ e = InvalidCredentials.
Proof.
  induction teachers as [|t ts IH]; simpl.
  - by intros [= <- <-].
  - destruct (_ && _); [done | exact IH].
Qed.

Lemma signup_for_activity_Raise (activity_name email user : string)
    (st st' : Server) (e : HTTPException) :
  signup_for_activity activity_name email user st = (st', Raise e) →
  st' = st ∧ (e = NotFound ∨ e = AlreadyRegistered).
Proof.
  unfold signup_for_activity.
  destruct (activities st !! activity_name) as [a|]; [|intros [= <- <-]; eauto].
  destruct (list_contains email (participants a)); [|done].
  intros [= <- <-]; eauto.
Qed.

Lemma unregister_from_activity_Raise (activity_name email user : string)
    (st st' : Server) (e : HTTPException) :
  unregister_from_activity activity_name email user st = (st', Raise e) →
  st' = st ∧ (e = NotFound ∨ e = NotRegistered).
Proof.
  unfold unregister_from_activity.
  destruct (activities st !! activity_name) as [a|]; [|intros [= <- <-]; eauto].
  destruct (list_contains email (participants a)) eqn:Hc; simpl;
    [|intros [= <- <-]; eauto].
  destruct (list_remove_first email (participants a)) eqn:Hr; [done|].
  apply list_contains_true in Hc. apply list_remove_first_None in Hr. done.
Qed.

Lemma with_auth_Raise (tok : option string)
    (handler : string → Server → Server * outcome Response)
    (st st' : Server) (e : HTTPException) :
  with_auth tok handler st = (st', Raise e) →
  (st' = st ∧ e = Unauthenticated) ∨ ∃ u, handler u st = (st', Raise e).
Proof.
  unfold with_auth. destruct (require_auth st tok) as [u|e'] eqn:Hauth.
  - eauto.
  - intros [= <- <-]. left. split; [done|]. by eapply require_auth_Raise.
Qed.

(** C5. Whenever a request is answered with an error, the session store
    and the catalog are exactly what they were before the request; the
    error is one of Unauthenticated, InvalidCredentials, NotFound,
    AlreadyRegistered, NotRegistered. This covers login, signup and
    unregister (the other requests never fail). *)
Theorem error_leaves_state_unchanged (teachers : list Teacher) (r : Request)
    (st st' : Server) (e : HTTPException) :
  handle teachers r st = (st', Raise e) →
  st' = st
  ∧ e ∈ [Unauthenticated; InvalidCredentials; NotFound; AlreadyRegistered;
         NotRegistered].
Proof.
  by_route r; try done.
  - intros H. apply login_Raise in H as [-> ->]. split; [done|]. set_solver.
  - intros H. apply with_auth_Raise in H as [[-> ->]|[u H]].
    + split; [done|]. set_solver.
    + apply signup_for_activity_Raise in H as [-> [-> | ->]];
        (split; [done|]); set_solver.
  - intros H. apply with_auth_Raise in H as [[-> ->]|[u H]].
    + split; [done|]. set_solver.
    + apply unregister_from_activity_Raise in H as [-> [-> | ->]];
        (split; [done|]); set_solver.
Qed.

(** A signup of an email that is already on the roster, by a logged-in
    teacher. *)
Lemma error_leaves_state_unchanged_witness :
  handle demo_teachers
    (PostSignup (Some "tok-1") "Chess Club" "michael@mergington.edu")
    demo_logged_in
  = (demo_logged_in, Raise AlreadyRegistered)
  ∧ demo_logged_in = demo_logged_in
  ∧ AlreadyRegistered
    ∈ [Unauthenticated; InvalidCredentials; NotFound; AlreadyRegistered;
       NotRegistered].
Proof.
  assert (handle demo_teachers
            (PostSignup (Some "tok-1") "Chess Club" "michael@mergington.edu")
            demo_logged_in
          = (demo_logged_in, Raise AlreadyRegistered)) as H
    by (vm_compute; reflexivity).
  split; [exact H|].
  exact (error_leaves_state_unchanged demo_teachers _ _ _ _ H).
Defined.

(** ** Capacity is not enforced *)

Lemma require_auth_erase (st : Server) (tok : option string) :
  require_auth (erase_capacities st) tok = require_auth st tok.
Proof. by apply require_auth_sessions. Qed.

Lemma login_erase (teachers : list Teacher) (credentials : LoginRequest)
    (tok : string) (st : Server) :
  login teachers credentials tok (erase_capacities st)
  = erase_result (login teachers credentials tok st).
Proof.
  induction teachers as [|t ts IH]; simpl; [done|].
  by destruct (_ && _).
Qed.

Lemma logout_erase (tok : option string) (st : Server) :
  logout tok (erase_capacities st) = erase_result (logout tok st).
Proof.
  unfold logout, erase_result. simpl. f_equal.
  destruct tok as [t|]; [|done]. by destruct (_ && _).
Qed.

Lemma signup_for_activity_erase (activity_name email user : string) (st : Server) :
  signup_for_activity activity_name email user (erase_capacities st)
  = erase_result (signup_for_activity activity_name email user st).
Proof.
  unfold signup_for_activity, erase_result. simpl. rewrite lookup_fmap.
  destruct (activities st !! activity_name) as [a|]; simpl; [|done].
  destruct (list_contains email (participants a)); simpl; [done|].
  unfold erase_capacities, set_activities. simpl. by rewrite fmap_insert.
Qed.

Lemma unregister_from_activity_erase (activity_name email user : string)
    (st : Server) :
  unregister_from_activity activity_name email user (erase_capacities st)
  = erase_result (unregister_from_activity activity_name email user st).
Proof.
  unfold unregister_from_activity, erase_result. simpl. rewrite lookup_fmap.
  destruct (activities st !! activity_name) as [a|]; simpl; [|done].
  destruct (list_contains email (participants a)); simpl; [|done].
  destruct (list_remove_first email (participants a)); simpl; [|done].
  unfold erase_capacities, set_activities. simpl. by rewrite fmap_insert.
Qed.

Lemma with_auth_erase (tok : option string)
    (handler : string → Server → Server * outcome Response) (st : Server) :
  (∀ u, handler u (erase_capacities st) = erase_result (handler u st)) →
  with_auth tok handler (erase_capacities st)
  = erase_result (with_auth tok handler st).
Proof.
  intros Hh. unfold with_auth. rewrite require_auth_erase.
  destruct (require_auth st tok); [apply Hh | done].
Qed.

(** Serving a request commutes with blanking the capacities. *)
Lemma handle_erase (teachers : list Teacher) (r : Request) (st : Server) :
  handle teachers r (erase_capacities st) = erase_result (handle teachers r st).
Proof.
  by_route r; try done.
  - apply login_erase.
  - apply logout_erase.
  - unfold erase_result, auth_status, get_current_user. simpl.
    destruct tok as [t|]; [|done].
    destruct (_ && _); [|done].
    destruct (sessions st !! t) as [u|]; [by destruct (truthy u) | done].
  - apply with_auth_erase. intros u. apply signup_for_activity_erase.
  - apply with_auth_erase. intros u. apply unregister_from_activity_erase.
Qed.

(** C6. Signup has no capacity check. (1) For every request that passes
    the authentication gate, on an activity that exists, with an email
    not on its roster, signup returns the success message and, in the
    state it leaves, the activity's roster is the old one followed by
    the email (so one longer), its other fields, every other activity
    and the session store are as before, whatever the roster's length
    and the activity's [max_participants] are. (2) Two server states
    that differ only in [max_participants] values answer every request
    alike and stay alike, up to the [max_participants] values a catalog
    listing shows. *)
Theorem signup_ignores_capacity :
  (∀ (st : Server) (tok : option string) (activity_name email u : string)
     (a : Activity),
      require_auth st tok = Return u →
      activities st !! activity_name = Some a →
      email ∉ participants a →
      ∃ st',
        signup_endpoint tok activity_name email st
        = (st', Return (mkResponse
                          (Message ("Signed up " +:+ email +:+ " for "
                                    +:+ activity_name)) None))
        ∧ activities st' !! activity_name
          = Some (mkActivity (description a) (schedule a) (max_participants a)
                    (participants a ++ [email]))
        ∧ (length <$> (participants <$> activities st' !! activity_name))
          = Some (S (length (participants a)))
        ∧ (∀ other, other ≠ activity_name →
                    activities st' !! other = activities st !! other)
        ∧ sessions st' = sessions st)
  ∧ (∀ (teachers : list Teacher) (r : Request) (st1 st2 : Server),
      erase_capacities st1 = erase_capacities st2 →
      erase_capacities (fst (handle teachers r st1))
      = erase_capacities (fst (handle teachers r st2))
      ∧ erase_outcome (snd (handle teachers r st1))
        = erase_outcome (snd (handle teachers r st2))).
Proof.
  split.
  - intros st tok name email u a Hauth Ha Hnot.
    rewrite (signup_endpoint_authenticated _ _ _ _ _ Hauth).
    unfold signup_for_activity. rewrite Ha.
    apply list_contains_false in Hnot. rewrite Hnot.
    eexists. split; [reflexivity|].
    cbn [activities sessions set_activities]. rewrite lookup_insert_eq.
    unfold with_participants, list_append. split_and!.
    + reflexivity.
    + cbn [fmap option_fmap option_map participants].
      rewrite length_app. simpl. f_equal. lia.
    + intros other Hne. by apply lookup_insert_ne.
    + reflexivity.
  - intros teachers r st1 st2 Heq.
    pose proof (handle_erase teachers r st1) as H1.
    pose proof (handle_erase teachers r st2) as H2.
    rewrite Heq, H2 in H1. unfold erase_result in H1.
    split; [exact (eq_sym (f_equal fst H1)) | exact (eq_sym (f_equal snd H1))].
Qed.

(** In the state reached by filling the Math Club, its roster holds ten
    emails against a capacity of ten; the eleventh signup succeeds and
    the roster then holds eleven. And the seeded server with all
    capacities set to 0 answers the demo signup as the seeded server
    does. *)
Lemma signup_ignores_capacity_witness :
  (activities math_club_full !! "Math Club" = Some math_club_full_entry
   ∧ (max_participants math_club_full_entry
      ≤ Z.of_nat (length (participants math_club_full_entry)))%Z)
  ∧ (∃ st',
       signup_endpoint (Some "tok-1") "Math Club" "s9@mergington.edu"
         math_club_full
       = (st', Return (mkResponse
                         (Message ("Signed up " +:+ "s9@mergington.edu"
                                   +:+ " for " +:+ "Math Club")) None))
       ∧ activities st' !! "Math Club"
         = Some (mkActivity (description math_club_full_entry)
                   (schedule math_club_full_entry)
                   (max_participants math_club_full_entry)
                   (participants math_club_full_entry ++ ["s9@mergington.edu"]))
       ∧ (length <$> (participants <$> activities st' !! "Math Club"))
         = Some (S (length (participants math_club_full_entry)))
       ∧ (∀ other, other ≠ "Math Club" →
                   activities st' !! other = activities math_club_full !! other)
       ∧ sessions st' = sessions math_club_full)
  ∧ erase_capacities
      (fst (handle demo_teachers
              (PostSignup (Some "tok-1") "Chess Club" "new@mergington.edu")
              demo_logged_in))
    = erase_capacities
        (fst (handle demo_teachers
                (PostSignup (Some "tok-1") "Chess Club" "new@mergington.edu")
                (erase_capacities demo_logged_in)))
  ∧ erase_outcome
      (snd (handle demo_teachers
              (PostSignup (Some "tok-1") "Chess Club" "new@mergington.edu")
              demo_logged_in))
    = erase_outcome
        (snd (handle demo_teachers
                (PostSignup (Some "tok-1") "Chess Club" "new@mergington.edu")
                (erase_capacities demo_logged_in))).
Proof.
  destruct signup_ignores_capacity as [Hsignup Hsame].
  split; [split; vm_compute; [reflexivity | discriminate]|]. split.
  - apply (Hsignup math_club_full (Some "tok-1") "Math Club"
             "s9@mergington.edu" "staff" math_club_full_entry).
    + vm_compute. reflexivity.
    + vm_compute. reflexivity.
    + apply (bool_decide_unpack _). vm_compute. reflexivity.
  - apply (Hsame demo_teachers
             (PostSignup (Some "tok-1") "Chess Club" "new@mergington.edu")
             demo_logged_in (erase_capacities demo_logged_in)).
    vm_compute. reflexivity.
Defined.

(** ** Login *)

Lemma login_match (teachers : list Teacher) (credentials : LoginRequest)
    (tok : string) (st : Server) :
  credentials_match teachers credentials →
  login teachers credentials tok st = login_success credentials tok st.
Proof.
  unfold credentials_match. induction teachers as [|t ts IH]; intros Hm.
  - by apply Exists_nil in Hm.
  - simpl. destruct (bool_decide (teacher_username t = username credentials)
                     && bool_decide (teacher_password t = password credentials))
      eqn:Hb; [done|].
    apply Exists_cons in Hm as [[Hu Hp]|Hm]; [|by apply IH].
    rewrite (bool_decide_eq_true_2 _ Hu), (bool_decide_eq_true_2 _ Hp) in Hb.
    done.
Qed.

Lemma login_no_match (teachers : list Teacher) (credentials : LoginRequest)
    (tok : string) (st : Server) :
  ¬ credentials_match teachers credentials →
  login teachers credentials tok st = (st, Raise InvalidCredentials).
Proof.
  unfold credentials_match. induction teachers as [|t ts IH]; intros Hm; [done|].
  simpl. destruct (bool_decide (teacher_username t = username credentials)
                   && bool_decide (teacher_password t = password credentials))
    eqn:Hb.
  - exfalso. apply Hm, Exists_cons_hd.
    apply andb_true_iff in Hb as [Hu Hp].
    by apply bool_decide_eq_true in Hu, Hp.
  - apply IH. intros H. by apply Hm, Exists_cons_tl.
Qed.

(** C7. Login succeeds exactly when some entry of the credential list
    equals the request in both username and password (string equality,
    so letter case counts). With no such entry it raises
    InvalidCredentials, which carries no cookie, and the session store
    and catalog are unchanged. With one, the answer sets the cookie to
    the token drawn in this call, the store maps that token to the
    request's username, and every other token keeps what it mapped to;
    when the drawn token was not yet a key, the set of keys grows by
    exactly that token. *)
Theorem login_spec (teachers : list Teacher) (credentials : LoginRequest)
    (tok : string) (st : Server) :
  (credentials_match teachers credentials ↔
   ∃ st' resp, login teachers credentials tok st = (st', Return resp))
  ∧ (¬ credentials_match teachers credentials →
     login teachers credentials tok st = (st, Raise InvalidCredentials))
  ∧ (credentials_match teachers credentials →
     ∃ st',
       login teachers credentials tok st
       = (st', Return (mkResponse
                         (LoginOk "Login successful" (username credentials))
                         (Some (SetCookie "session_token" tok true "lax"))))
       ∧ sessions st' !! tok = Some (username credentials)
       ∧ (∀ t, t ≠ tok → sessions st' !! t = sessions st !! t)
       ∧ (tok ∉ dom (sessions st) →
          dom (sessions st') = {[tok]} ∪ dom (sessions st)
          ∧ size (sessions st') = S (size (sessions st)))
       ∧ activities st' = activities st).
Proof.
  split_and!.
  - split.
    + intros Hm. rewrite (login_match _ _ _ _ Hm). unfold login_success. eauto.
    + intros (st' & resp & Hl).
      destruct (decide (credentials_match teachers credentials)) as [|Hn]; [done|].
      rewrite (login_no_match _ _ _ _ Hn) in Hl. done.
  - apply login_no_match.
  - intros Hm. rewrite (login_match _ _ _ _ Hm). unfold login_success.
    eexists. split; [reflexivity|]. simpl. split_and!.
    + apply lookup_insert_eq.
    + intros t Hne. by apply lookup_insert_ne.
    + intros Hfresh. split; [apply dom_insert_L|].
      apply map_size_insert_None. by apply not_elem_of_dom.
    + done.
Qed.

(** The demo account logs in; a wrong password, an unknown user and a
    username in the wrong letter case are turned away. *)
Lemma login_spec_witness :
  (∃ st',
     login demo_teachers (mkLoginRequest "staff" "s3cret") "tok-1" server_init
     = (st', Return (mkResponse (LoginOk "Login successful" "staff")
                       (Some (SetCookie "session_token" "tok-1" true "lax"))))
     ∧ sessions st' !! "tok-1" = Some "staff"
     ∧ (∀ t, t ≠ "tok-1" → sessions st' !! t = sessions server_init !! t)
     ∧ ("tok-1" ∉ dom (sessions server_init) →
        dom (sessions st') = {["tok-1"]} ∪ dom (sessions server_init)
        ∧ size (sessions st') = S (size (sessions server_init)))
     ∧ activities st' = activities server_init)
  ∧ login demo_teachers (mkLoginRequest "staff" "wrong") "tok-2" server_init
    = (server_init, Raise InvalidCredentials)
  ∧ login demo_teachers (mkLoginRequest "nobody" "s3cret") "tok-3" server_init
    = (server_init, Raise InvalidCredentials)
  ∧ login demo_teachers (mkLoginRequest "Staff" "s3cret") "tok-4" server_init
    = (server_init, Raise InvalidCredentials).
Proof.
  split_and!.
  - apply (login_spec demo_teachers (mkLoginRequest "staff" "s3cret") "tok-1"
             server_init).
    apply (bool_decide_unpack _). vm_compute. reflexivity.
  - apply (login_spec demo_teachers (mkLoginRequest "staff" "wrong") "tok-2"
             server_init).
    apply (bool_decide_unpack _). vm_compute. reflexivity.
  - apply (login_spec demo_teachers (mkLoginRequest "nobody" "s3cret") "tok-3"
             server_init).
    apply (bool_decide_unpack _). vm_compute. reflexivity.
  - apply (login_spec demo_teachers (mkLoginRequest "Staff" "s3cret") "tok-4"
             server_init).
    apply (bool_decide_unpack _). vm_compute. reflexivity.
Defined.

(** ** Logout *)

Lemma login_sessions (teachers : list Teacher) (credentials : LoginRequest)
    (tok : string) (st : Server) :
  sessions (fst (login teachers credentials tok st)) = sessions st
  ∨ sessions (fst (login teachers credentials tok st))
    = <[tok := username credentials]> (sessions st).
Proof.
  induction teachers as [|t ts IH]; simpl; [by left|].
  destruct (_ && _); [by right | exact IH].
Qed.

Lemma logout_sessions (tok : option string) (st : Server) (t : string) :
  sessions st !! t = None → sessions (fst (logout tok st)) !! t = None.
Proof.
  intros Hnone. unfold logout. simpl. destruct tok as [t'|]; [|done].
  destruct (_ && _); [|done]. simpl.
  rewrite lookup_delete_None. by right.
Qed.

(** A token that is not a key stays out of the session store until a
    login draws it. *)
Lemma handle_sessions_absent (teachers : list Teacher) (r : Request)
    (st : Server) (t : string) :
  sessions st !! t = None → t ∉ drawn_tokens [r] →
  sessions (fst (handle teachers r st)) !! t = None.
Proof.
  intros Hnone Hdraw.
  by_route r; try done.
  - simpl in Hdraw. apply not_elem_of_cons in Hdraw as [Hne _].
    destruct (login_sessions teachers cr tok st) as [-> | ->]; [done|].
    by rewrite lookup_insert_ne.
  - by apply logout_sessions.
  - unfold signup_endpoint.
    apply (with_auth_step _ _ _ (λ s, sessions s !! t = None)); [done|].
    intros u. by rewrite (proj1 (signup_for_activity_step _ _ _ _)).
  - unfold unregister_endpoint.
    apply (with_auth_step _ _ _ (λ s, sessions s !! t = None)); [done|].
    intros u. by rewrite (proj1 (unregister_from_activity_step _ _ _ _)).
Qed.

Lemma drawn_tokens_cons (r : Request) (rs : list Request) :
  drawn_tokens (r :: rs) = drawn_tokens [r] ++ drawn_tokens rs.
Proof. by destruct r. Qed.

Lemma serve_sessions_absent (teachers : list Teacher) (rs : list Request)
    (st : Server) (t : string) :
  sessions st !! t = None → t ∉ drawn_tokens rs →
  sessions (serve teachers rs st) !! t = None.
Proof.
  revert st. induction rs as [|r rs IH]; intros st Hnone Hdraw; [done|].
  rewrite drawn_tokens_cons in Hdraw. apply not_elem_of_app in Hdraw as [Hr Hrs].
  simpl. apply IH; [|done]. by apply handle_sessions_absent.
Qed.

(** The empty string is never a session token: [secrets.token_urlsafe(32)]
    yields 43 characters, so no login draws it. *)
Lemma served_sessions_no_empty_token (teachers : list Teacher)
    (rs : list Request) :
  EmptyString ∉ drawn_tokens rs →
  sessions (serve teachers rs server_init) !! EmptyString = None.
Proof. apply serve_sessions_absent. apply lookup_empty. Qed.

Lemma logout_removes (st : Server) (t : string) :
  t ≠ EmptyString ∨ sessions st !! EmptyString = None →
  sessions (fst (logout (Some t) st)) !! t = None.
Proof.
  intros Hempty. unfold logout. simpl.
  destruct (truthy t) eqn:Ht; simpl.
  - case_bool_decide as Hd; simpl; [apply lookup_delete_eq|].
    by apply not_elem_of_dom.
  - apply truthy_false in Ht. subst. by destruct Hempty.
Qed.

Lemma logout_absent (st : Server) (t : string) :
  t ∉ dom (sessions st) → fst (logout (Some t) st) = st.
Proof.
  intros Hd. unfold logout. simpl. rewrite (bool_decide_eq_false_2 _ Hd).
  by rewrite andb_false_r.
Qed.

Lemma logout_other (st : Server) (t t' : string) :
  t' ≠ t → sessions (fst (logout (Some t) st)) !! t' = sessions st !! t'.
Proof.
  intros Hne. unfold logout. simpl. destruct (_ && _); [|done].
  simpl. by rewrite lookup_delete_ne.
Qed.

(** C8. Let [t] be a non-empty token, or let the session store have no
    empty key (session tokens never are empty, so both hold in the
    running server). After a logout carrying [t]: [t] is not a key of the
    store, the logout changed nothing if [t] was not a key before, the
    other sessions and the catalog are as before; and after any further
    requests among which no login draws [t] again, [t] still is not a
    key, resolves to no user, and a signup or unregister carrying it
    answers 401 for every activity name and email. *)
Theorem logout_destroys_session (teachers : list Teacher) (st : Server)
    (t : string) (rs : list Request) :
  t ≠ EmptyString ∨ sessions st !! EmptyString = None →
  t ∉ drawn_tokens rs →
  let st1 := fst (logout (Some t) st) in
  let st2 := serve teachers rs st1 in
  (t ∉ dom (sessions st1))
  ∧ (t ∉ dom (sessions st) → st1 = st)
  ∧ (∀ t', t' ≠ t → sessions st1 !! t' = sessions st !! t')
  ∧ activities st1 = activities st
  ∧ (t ∉ dom (sessions st2))
  ∧ get_current_user st2 (Some t) = None
  ∧ (∀ activity_name email,
       signup_endpoint (Some t) activity_name email st2
       = (st2, Raise Unauthenticated)
       ∧ unregister_endpoint (Some t) activity_name email st2
         = (st2, Raise Unauthenticated)).
Proof.
  intros Hempty Hdraw st1 st2.
  assert (sessions st1 !! t = None) as H1 by by apply logout_removes.
  assert (sessions st2 !! t = None) as H2 by by apply serve_sessions_absent.
  split_and!.
  - by apply not_elem_of_dom.
  - apply logout_absent.
  - intros t'. apply logout_other.
  - apply logout_activities.
  - by apply not_elem_of_dom.
  - by apply get_current_user_unknown.
  - intros name email.
    assert (require_auth st2 (Some t) = Raise Unauthenticated) as Hauth.
    { apply require_auth_unknown. simpl. by apply not_elem_of_dom. }
    unfold signup_endpoint, unregister_endpoint, with_auth. by rewrite Hauth.
Qed.

(** The demo teacher logs out; a colleague's later login (another token)
    and a replayed signup do not bring the old token back. *)
Lemma logout_destroys_session_witness :
  let rs := [PostLogin (mkLoginRequest "staff" "s3cret") "tok-2";
             PostSignup (Some "tok-1") "Chess Club" "new@mergington.edu"] in
  let st1 := fst (logout (Some "tok-1") demo_logged_in) in
  let st2 := serve demo_teachers rs st1 in
  get_current_user demo_logged_in (Some "tok-1") = Some "staff"
  ∧ ("tok-1" ∉ dom (sessions st1))
  ∧ ("tok-1" ∉ dom (sessions demo_logged_in) → st1 = demo_logged_in)
  ∧ (∀ t', t' ≠ "tok-1" → sessions st1 !! t' = sessions demo_logged_in !! t')
  ∧ activities st1 = activities demo_logged_in
  ∧ ("tok-1" ∉ dom (sessions st2))
  ∧ get_current_user st2 (Some "tok-1") = None
  ∧ (∀ activity_name email,
       signup_endpoint (Some "tok-1") activity_name email st2
       = (st2, Raise Unauthenticated)
       ∧ unregister_endpoint (Some "tok-1") activity_name email st2
         = (st2, Raise Unauthenticated)).
Proof.
  split; [by vm_compute|].
  apply (logout_destroys_session demo_teachers demo_logged_in "tok-1"
           [PostLogin (mkLoginRequest "staff" "s3cret") "tok-2";
            PostSignup (Some "tok-1") "Chess Club" "new@mergington.edu"]).
  - right. vm_compute. reflexivity.
  - apply (bool_decide_unpack _). vm_compute. reflexivity.
Defined.

(** ** Frame and round trip *)

Lemma with_auth_Return_inv (tok : option string)
    (handler : string → Server → Server * outcome Response)
    (st st' : Server) (resp : Response) :
  with_auth tok handler st = (st', Return resp) →
  ∃ u, require_auth st tok = Return u ∧ handler u st = (st', Return resp).
Proof.
  unfold with_auth. destruct (require_auth st tok) as [u|e]; [eauto | done].
Qed.

Lemma signup_for_activity_Return (activity_name email user : string)
    (st st' : Server) (resp : Response) :
  signup_for_activity activity_name email user st = (st', Return resp) →
  ∃ a, activities st !! activity_name = Some a
       ∧ (email ∉ participants a)
       ∧ st' = set_activities st
                 (<[activity_name :=
                      with_participants a (participants a ++ [email])]>
                    (activities st)).
Proof.
  unfold signup_for_activity.
  destruct (activities st !! activity_name) as [a|]; [|done].
  destruct (list_contains email (participants a)) eqn:Hc; [done|].
  intros [= <- _]. exists a. split_and!; [done | | done].
  by apply list_contains_false.
Qed.

Lemma unregister_from_activity_Return (activity_name email user : string)
    (st st' : Server) (resp : Response) :
  unregister_from_activity activity_name email user st = (st', Return resp) →
  ∃ a ps, activities st !! activity_name = Some a
          ∧ list_remove_first email (participants a) = Some ps
          ∧ st' = set_activities st
                    (<[activity_name := with_participants a ps]> (activities st)).
Proof.
  unfold unregister_from_activity.
  destruct (activities st !! activity_name) as [a|]; [|done].
  destruct (list_contains email (participants a)); simpl; [|done].
  destruct (list_remove_first email (participants a)) as [ps|] eqn:Hr; [|done].
  intros [= <- _]. by exists a, ps.
Qed.

(** Replacing the roster of an existing activity touches nothing else. *)
Lemma roster_update_frame (st : Server) (activity_name : string) (a : Activity)
    (ps : list string) :
  activities st !! activity_name = Some a →
  let st' := set_activities st
               (<[activity_name := with_participants a ps]> (activities st)) in
  sessions st' = sessions st
  ∧ dom (activities st') = dom (activities st)
  ∧ (∀ other, other ≠ activity_name →
              activities st' !! other = activities st !! other)
  ∧ ∃ a', activities st' !! activity_name = Some a'
          ∧ description a' = description a
          ∧ schedule a' = schedule a
          ∧ max_participants a' = max_participants a.
Proof.
  intros Ha st'. subst st'. simpl. split_and!.
  - done.
  - by apply dom_insert_lookup_L.
  - intros other Hne. by apply lookup_insert_ne.
  - eexists. by rewrite lookup_insert_eq.
Qed.

(** C9. A signup or unregister that succeeds on an activity leaves the
    session store as it was, the set of activity names as it was, every
    other activity as it was, and the description, schedule and
    [max_participants] of the activity itself as they were. *)
Theorem roster_change_frame (st st' : Server) (tok : option string)
    (activity_name email : string) (resp : Response) :
  signup_endpoint tok activity_name email st = (st', Return resp)
  ∨ unregister_endpoint tok activity_name email st = (st', Return resp) →
  sessions st' = sessions st
  ∧ dom (activities st') = dom (activities st)
  ∧ (∀ other, other ≠ activity_name →
              activities st' !! other = activities st !! other)
  ∧ ∃ a a', activities st !! activity_name = Some a
            ∧ activities st' !! activity_name = Some a'
            ∧ description a' = description a
            ∧ schedule a' = schedule a
            ∧ max_participants a' = max_participants a.
Proof.
  intros [H|H]; apply with_auth_Return_inv in H as (u & _ & H).
  - apply signup_for_activity_Return in H as (a & Ha & _ & ->).
    destruct (roster_update_frame st activity_name a
                (participants a ++ [email]) Ha) as (Hs & Hd & Ho & a' & Hl & Hf).
    split_and!; [done..|]. by exists a, a'.
  - apply unregister_from_activity_Return in H as (a & ps & Ha & _ & ->).
    destruct (roster_update_frame st activity_name a ps Ha)
      as (Hs & Hd & Ho & a' & Hl & Hf).
    split_and!; [done..|]. by exists a, a'.
Qed.

Lemma roster_change_frame_witness :
  sessions demo_signed_up = sessions demo_logged_in
  ∧ dom (activities demo_signed_up) = dom (activities demo_logged_in)
  ∧ (∀ other, other ≠ "Chess Club" →
              activities demo_signed_up !! other
              = activities demo_logged_in !! other)
  ∧ ∃ a a', activities demo_logged_in !! "Chess Club" = Some a
            ∧ activities demo_signed_up !! "Chess Club" = Some a'
            ∧ description a' = description a
            ∧ schedule a' = schedule a
            ∧ max_participants a' = max_participants a.
Proof.
  apply (roster_change_frame demo_logged_in demo_signed_up (Some "tok-1")
           "Chess Club" "new@mergington.edu"
           (mkResponse
              (Message "Signed up new@mergington.edu for Chess Club") None)).
  left. vm_compute. reflexivity.
Defined.

(** C10. When the request is authenticated, the activity exists and the
    email is not on its roster, the signup succeeds and puts the email at
    the end of the roster, and the unregister of the same email that
    follows succeeds and gives back the state from before the signup:
    the same roster, the same catalog, the same session store. *)
Theorem signup_unregister_roundtrip (st : Server) (tok : option string)
    (activity_name email u : string) (a : Activity) :
  require_auth st tok = Return u →
  activities st !! activity_name = Some a →
  email ∉ participants a →
  ∃ st1,
    signup_endpoint tok activity_name email st
    = (st1, Return (mkResponse
                      (Message ("Signed up " +:+ email +:+ " for "
                                +:+ activity_name)) None))
    ∧ (participants <$> activities st1 !! activity_name)
      = Some (participants a ++ [email])
    ∧ unregister_endpoint tok activity_name email st1
      = (st, Return (mkResponse
                       (Message ("Unregistered " +:+ email +:+ " from "
                                 +:+ activity_name)) None)).
Proof.
  intros Hauth Ha Hnot.
  rewrite (signup_endpoint_authenticated _ _ _ _ _ Hauth).
  unfold signup_for_activity. rewrite Ha.
  rewrite (proj2 (list_contains_false _ _) Hnot).
  eexists. split; [reflexivity|]. split.
  - simpl. by rewrite lookup_insert_eq.
  - rewrite (unregister_endpoint_authenticated _ _ _ _ u);
      [|by rewrite <- Hauth; apply require_auth_sessions].
    unfold unregister_from_activity. simpl. rewrite lookup_insert_eq. simpl.
    assert (list_contains email (list_append (participants a) email) = true)
      as -> by (apply list_contains_true, elem_of_app; right; left).
    simpl. rewrite (list_remove_first_append _ _ Hnot).
    f_equal. unfold set_activities. simpl.
    rewrite insert_insert_eq. destruct st as [s c], a as [d sc m ps]. simpl in *.
    unfold with_participants. simpl. f_equal. by apply insert_id.
Qed.

Lemma signup_unregister_roundtrip_witness :
  ∃ st1,
    signup_endpoint (Some "tok-1") "Chess Club" "new@mergington.edu"
      demo_logged_in
    = (st1, Return (mkResponse
                      (Message ("Signed up " +:+ "new@mergington.edu" +:+ " for "
                                +:+ "Chess Club")) None))
    ∧ (participants <$> activities st1 !! "Chess Club")
      = Some (["michael@mergington.edu"; "daniel@mergington.edu"]
              ++ ["new@mergington.edu"])
    ∧ unregister_endpoint (Some "tok-1") "Chess Club" "new@mergington.edu" st1
      = (demo_logged_in,
         Return (mkResponse
                   (Message ("Unregistered " +:+ "new@mergington.edu" +:+ " from "
                             +:+ "Chess Club")) None)).
Proof.
  apply (signup_unregister_roundtrip demo_logged_in (Some "tok-1") "Chess Club"
           "new@mergington.edu" "staff"
           (mkActivity "Learn strategies and compete in chess tournaments"
              "Fridays, 3:30 PM - 5:00 PM" 12
              ["michael@mergington.edu"; "daniel@mergington.edu"])).
  - vm_compute. reflexivity.
  - vm_compute. reflexivity.
  - apply (bool_decide_unpack _). vm_compute. reflexivity.
Defined.


(** ** The handlers on the seeded catalog *)

(** Signing a new student up for the Chess Club gives a roster of three
    that ends with the new email. *)
Example chess_club_signup :
  participants <$> activities demo_signed_up !! "Chess Club"
  = Some ["michael@mergington.edu"; "daniel@mergington.edu";
          "new@mergington.edu"].
Proof. vm_compute. reflexivity. Qed.

(** Signing the same student up again is refused and changes nothing. *)
Example chess_club_signup_twice :
  signup_endpoint (Some "tok-1") "Chess Club" "new@mergington.edu" demo_signed_up
  = (demo_signed_up, Raise AlreadyRegistered).
Proof. vm_compute. reflexivity. Qed.

(** Unregistering a seeded student leaves the other one. *)
Example chess_club_unregister :
  participants
  <$> activities
        (fst (unregister_endpoint (Some "tok-1") "Chess Club"
                "michael@mergington.edu" demo_logged_in)) !! "Chess Club"
  = Some ["daniel@mergington.edu"].
Proof. vm_compute. reflexivity. Qed.

(** Unregistering somebody who is not on the roster is refused. *)
Example chess_club_unregister_stranger :
  unregister_endpoint (Some "tok-1") "Chess Club" "new@mergington.edu"
    demo_logged_in
  = (demo_logged_in, Raise NotRegistered).
Proof. vm_compute. reflexivity. Qed.

(** An unknown activity is reported before the roster is looked at. *)
Example unknown_activity :
  signup_endpoint (Some "tok-1") "Knitting" "new@mergington.edu" demo_logged_in
  = (demo_logged_in, Raise NotFound).
Proof. vm_compute. reflexivity. Qed.

(** After the login the status endpoint names the teacher; after the
    whole demo session, which ends with a logout, it does not. *)
Example auth_status_after_login :
  handle demo_teachers (GetAuthStatus (Some "tok-1")) demo_logged_in
  = (demo_logged_in, Return (mkResponse (AuthStatus true (Some "staff")) None))
  ∧ snd (handle demo_teachers (GetAuthStatus (Some "tok-1"))
           (serve demo_teachers demo_requests server_init))
    = Return (mkResponse (AuthStatus false None) None).
Proof. split; vm_compute; reflexivity. Qed.


(** ** More on the authentication gate and the session store *)

Lemma require_auth_cases (st : Server) (tok : option string) :
  require_auth st tok = Raise Unauthenticated
  ∨ ∃ u, require_auth st tok = Return u.
Proof.
  destruct (require_auth st tok) as [u|e] eqn:E; [eauto|].
  left. f_equal. by eapply require_auth_Raise.
Qed.

(** X1. The gate lets a request through exactly when its cookie is a
    non-empty token that is a key of the session store and the username
    stored under it is non-empty, and then hands that username to the
    handler; every other request gets the 401 error, also one whose
    token is a key but maps to the empty username. *)
Theorem gate_accepts_iff (st : Server) (tok : option string) :
  (∀ u, require_auth st tok = Return u ↔
        ∃ t, tok = Some t ∧ t ≠ EmptyString ∧ sessions st !! t = Some u
             ∧ u ≠ EmptyString)
  ∧ ((¬ ∃ t u, tok = Some t ∧ t ≠ EmptyString ∧ sessions st !! t = Some u
               ∧ u ≠ EmptyString) ↔
     require_auth st tok = Raise Unauthenticated).
Proof.
  split; [intros u; apply require_auth_Return|]. split.
  - intros Hno. destruct (require_auth_cases st tok) as [H|[u H]]; [done|].
    exfalso. apply Hno. apply require_auth_Return in H as (t & H). eauto.
  - intros Hr (t & u & H).
    assert (require_auth st tok = Return u) as Hu
      by (apply require_auth_Return; eauto).
    congruence.
Qed.

(** X2. The status endpoint and the gate agree: for every state and
    cookie, [auth_status] reports [authenticated: true] with the username
    exactly when [require_auth] would return that username, and
    [authenticated: false] exactly when [require_auth] would raise; the
    state is not changed. *)
Theorem auth_status_agrees_with_gate (teachers : list Teacher) (st : Server)
    (tok : option string) :
  handle teachers (GetAuthStatus tok) st
  = (st, Return (mkResponse
                   match require_auth st tok with
                   | Return u => AuthStatus true (Some u)
                   | Raise _ => AuthStatus false None
                   end None)).
Proof.
  cbn [handle]. unfold auth_status, require_auth.
  destruct (get_current_user st tok) as [u|]; [|done]. by destruct (truthy u).
Qed.



(** X4. Login followed by logout is a round trip: when the login
    succeeds with a non-empty token that was not yet a key of the session
    store, the logout carrying that token gives back exactly the state
    from before the login. *)
Theorem login_logout_roundtrip (teachers : list Teacher)
    (credentials : LoginRequest) (tok : string) (st : Server) :
  credentials_match teachers credentials →
  tok ≠ EmptyString →
  tok ∉ dom (sessions st) →
  fst (logout (Some tok) (fst (login teachers credentials tok st))) = st.
Proof.
  intros Hm Htok Hfresh. rewrite (login_match _ _ _ _ Hm).
  unfold login_success, logout. cbn [fst sessions].
  rewrite (proj2 (truthy_true tok) Htok).
  rewrite bool_decide_eq_true_2 by (rewrite dom_insert_L; set_solver).
  cbn [andb]. unfold set_sessions. cbn [sessions activities].
  rewrite delete_insert_id by by apply not_elem_of_dom.
  by destruct st.
Qed.

Lemma login_logout_roundtrip_witness :
  fst (logout (Some "tok-1")
         (fst (login demo_teachers (mkLoginRequest "staff" "s3cret") "tok-1"
                 server_init)))
  = server_init.
Proof.
  apply (login_logout_roundtrip demo_teachers (mkLoginRequest "staff" "s3cret")
           "tok-1" server_init).
  - apply (bool_decide_unpack _). vm_compute. reflexivity.
  - apply (bool_decide_unpack _). vm_compute. reflexivity.
  - apply (bool_decide_unpack _). vm_compute. reflexivity.
Defined.

(** X5. Logout never fails and is idempotent: for every state and
    cookie it answers the same success message and deletes the cookie;
    it leaves the state as it was exactly when the cookie resolves to no
    session (no cookie, an empty token, or a token that is not a key);
    and a second logout with the same cookie changes nothing more. *)
Theorem logout_idempotent (st : Server) (tok : option string) :
  snd (logout tok st)
  = Return (mkResponse (Message "Logged out successfully")
              (Some (DeleteCookie "session_token")))
  ∧ (fst (logout tok st) = st ↔ get_current_user st tok = None)
  ∧ get_current_user (fst (logout tok st)) tok = None
  ∧ fst (logout tok (fst (logout tok st))) = fst (logout tok st).
Proof.
  split; [done|].
  assert (get_current_user (fst (logout tok st)) tok = None) as Hgone.
  { destruct tok as [t|]; [|done].
    destruct (decide (t = EmptyString)) as [->|Hne]; [done|].
    apply get_current_user_unknown, logout_removes. by left. }
  assert (∀ s, get_current_user s tok = None → fst (logout tok s) = s) as Hnop.
  { intros s. destruct tok as [t|]; [|done].
    unfold logout, get_current_user. cbn [fst].
    destruct (truthy t); [|done]. cbn [andb].
    case_bool_decide as Hd; [|done]. apply elem_of_dom in Hd as [u Hu].
    rewrite Hu. done. }
  split_and!; [|exact Hgone|by apply Hnop]. split; [|apply Hnop].
  intros Heq. rewrite <- Heq at 1. exact Hgone.
Qed.

(** ** What the handlers never touch *)

(** X6. Each route changes at most its own half of the state: login and
    logout leave the catalog as it was, signup and unregister leave the
    session store as it was, and the root redirect, the status endpoint
    and the catalog listing leave the whole state as it was, the listing
    returning the catalog as it stands. *)
Theorem handle_frame (teachers : list Teacher) (r : Request) (st : Server) :
  match r with
  | PostLogin _ _ | PostLogout _ =>
      activities (fst (handle teachers r st)) = activities st
  | PostSignup _ _ _ | DeleteUnregister _ _ _ =>
      sessions (fst (handle teachers r st)) = sessions st
  | GetActivities =>
      handle teachers r st = (st, Return (mkResponse (Catalog (activities st)) None))
  | GetRoot | GetAuthStatus _ =>
      fst (handle teachers r st) = st
  end.
Proof.
  by_route r; try done.
  - apply login_activities.
  - apply logout_activities.
  - unfold signup_endpoint.
    apply (with_auth_step _ _ _ (λ s, sessions s = sessions st)); [done|].
    intros u. apply signup_for_activity_step.
  - unfold unregister_endpoint.
    apply (with_auth_step _ _ _ (λ s, sessions s = sessions st)); [done|].
    intros u. apply unregister_from_activity_step.
Qed.

Lemma catalog_step_metadata (c c' : gmap string Activity) (name : string) :
  catalog_step c c' → metadata <$> c' !! name = metadata <$> c !! name.
Proof.
  intros [|n a email Ha _|n a email ps Ha _]; [done| |];
    (destruct (decide (n = name)) as [->|Hne];
     [rewrite lookup_insert_eq, Ha; reflexivity
     |by rewrite lookup_insert_ne]).
Qed.

Lemma serve_metadata (teachers : list Teacher) (rs : list Request) (st : Server)
    (name : string) :
  metadata <$> activities (serve teachers rs st) !! name
  = metadata <$> activities st !! name.
Proof.
  revert st. induction rs as [|r rs IH]; intros st; [done|].
  simpl. rewrite IH. apply catalog_step_metadata, handle_catalog_step.
Qed.

(** X7. No sequence of requests creates, removes or renames an activity
    or changes an activity's description, schedule or [max_participants]:
    after any requests the catalog has the keys it had, and each key has
    the three fields it had. From the seed the catalog therefore always
    holds the seeded activities with their seeded fields. *)
Theorem catalog_metadata_fixed (teachers : list Teacher) (rs : list Request)
    (st : Server) :
  dom (activities (serve teachers rs st)) = dom (activities st)
  ∧ ∀ name, metadata <$> activities (serve teachers rs st) !! name
            = metadata <$> activities st !! name.
Proof.
  split; [|intros name; apply serve_metadata].
  apply set_eq. intros name. rewrite !elem_of_dom.
  rewrite <- (fmap_is_Some metadata (activities (serve teachers rs st) !! name)).
  rewrite <- (fmap_is_Some metadata (activities st !! name)).
  by rewrite serve_metadata.
Qed.

Lemma login_sessions_of_teachers (teachers : list Teacher)
    (credentials : LoginRequest) (tok : string) (st : Server) :
  sessions_of_teachers teachers (sessions st) →
  sessions_of_teachers teachers
    (sessions (fst (login teachers credentials tok st))).
Proof.
  intros Hst.
  destruct (decide (credentials_match teachers credentials)) as [Hm|Hn].
  - rewrite (login_match _ _ _ _ Hm). unfold login_success. cbn [fst sessions].
    apply map_Forall_insert_2; [|done].
    unfold credentials_match in Hm. eapply Exists_impl; [exact Hm|].
    by intros teacher [Hu _].
  - by rewrite (login_no_match _ _ _ _ Hn).
Qed.

Lemma handle_sessions_of_teachers (teachers : list Teacher) (r : Request)
    (st : Server) :
  sessions_of_teachers teachers (sessions st) →
  sessions_of_teachers teachers (sessions (fst (handle teachers r st))).
Proof.
  intros Hst. by_route r; try done.
  - by apply login_sessions_of_teachers.
  - unfold logout. cbn [fst]. destruct tok as [t|]; [|done].
    destruct (_ && _); [|done]. cbn [sessions set_sessions].
    by apply map_Forall_delete.
  - unfold signup_endpoint.
    apply (with_auth_step _ _ _
             (λ s, sessions_of_teachers teachers (sessions s))); [done|].
    intros u. by rewrite (proj1 (signup_for_activity_step _ _ _ _)).
  - unfold unregister_endpoint.
    apply (with_auth_step _ _ _
             (λ s, sessions_of_teachers teachers (sessions s))); [done|].
    intros u. by rewrite (proj1 (unregister_from_activity_step _ _ _ _)).
Qed.

Lemma serve_sessions_of_teachers (teachers : list Teacher) (rs : list Request)
    (st : Server) :
  sessions_of_teachers teachers (sessions st) →
  sessions_of_teachers teachers (sessions (serve teachers rs st)).
Proof.
  revert st. induction rs as [|r rs IH]; intros st Hst; [done|].
  simpl. by apply IH, handle_sessions_of_teachers.
Qed.

(** X8. Sessions are only ever opened for entries of the credential
    list: in every state the server reaches from its initial state,
    whatever requests arrived, each username stored in the session store
    is the username of some entry of the list. *)
Theorem sessions_hold_teacher_usernames (teachers : list Teacher)
    (rs : list Request) (t u : string) :
  sessions (serve teachers rs server_init) !! t = Some u →
  ∃ teacher, teacher ∈ teachers ∧ teacher_username teacher = u.
Proof.
  intros Hl.
  assert (sessions_of_teachers teachers (sessions server_init)) as Hinit
    by apply map_Forall_empty.
  pose proof (serve_sessions_of_teachers teachers rs server_init Hinit t u Hl)
    as Hex.
  apply Exists_exists in Hex as (teacher & Hin & Hu). eauto.
Qed.

Lemma sessions_hold_teacher_usernames_witness :
  ∃ teacher, teacher ∈ demo_teachers ∧ teacher_username teacher = "staff".
Proof.
  apply (sessions_hold_teacher_usernames demo_teachers
           [PostLogin (mkLoginRequest "staff" "s3cret") "tok-1";
            PostLogin (mkLoginRequest "root" "toor") "tok-2";
            PostSignup (Some "tok-1") "Chess Club" "new@mergington.edu"]
           "tok-1" "staff").
  vm_compute. reflexivity.
Defined.

(** X9. The catalog never changes without a session: for every request
    and state, either the catalog after the request is the catalog
    before it, or the request is a signup or an unregister whose cookie
    is a non-empty token that the session store maps to a non-empty
    username. *)
Theorem roster_change_requires_session (teachers : list Teacher) (r : Request)
    (st : Server) :
  activities (fst (handle teachers r st)) = activities st
  ∨ ∃ t u activity_name email,
      (r = PostSignup (Some t) activity_name email
       ∨ r = DeleteUnregister (Some t) activity_name email)
      ∧ t ≠ EmptyString
      ∧ sessions st !! t = Some u
      ∧ u ≠ EmptyString.
Proof.
  by_route r; try (by left).
  - left. apply login_activities.
  - left. apply logout_activities.
  - unfold signup_endpoint, with_auth.
    destruct (require_auth st tok) as [u|e] eqn:Hauth; [|by left].
    apply require_auth_Return in Hauth as (t & -> & Ht & Hl & Hu).
    right. exists t, u, name, email. eauto.
  - unfold unregister_endpoint, with_auth.
    destruct (require_auth st tok) as [u|e] eqn:Hauth; [|by left].
    apply require_auth_Return in Hauth as (t & -> & Ht & Hl & Hu).
    right. exists t, u, name, email. eauto.
Qed.

Lemma handle_no_session (teachers : list Teacher) (r : Request) (st : Server) :
  login_fails teachers r = true → sessions st = ∅ →
  fst (handle teachers r st) = st.
Proof.
  intros Hfail Hempty.
  assert (∀ tok, require_auth st tok = Raise Unauthenticated) as Hauth.
  { intros tok. apply require_auth_unknown. destruct tok as [t|]; [|done].
    simpl. rewrite Hempty, dom_empty_L. apply not_elem_of_empty. }
  by_route r; try done.
  - simpl in Hfail. apply bool_decide_eq_true in Hfail.
    by rewrite (login_no_match _ _ _ _ Hfail).
  - unfold logout. cbn [fst]. destruct tok as [t|]; [|done].
    rewrite Hempty, dom_empty_L.
    rewrite (bool_decide_eq_false_2 _ (not_elem_of_empty t)).
    by rewrite andb_false_r.
  - unfold signup_endpoint, with_auth. by rewrite Hauth.
  - unfold unregister_endpoint, with_auth. by rewrite Hauth.
Qed.

Lemma serve_no_session (teachers : list Teacher) (rs : list Request)
    (st : Server) :
  forallb (login_fails teachers) rs = true → sessions st = ∅ →
  serve teachers rs st = st.
Proof.
  intros Hall Hempty. induction rs as [|r rs IH]; [done|].
  simpl in Hall. apply andb_true_iff in Hall as [Hr Hrs].
  simpl. rewrite (handle_no_session _ _ _ Hr Hempty). by apply IH.
Qed.

(** No entry matches when there are no entries: against the empty
    credential list every login is a failing one. *)
Lemma login_fails_no_teachers (rs : list Request) :
  forallb (login_fails []) rs = true.
Proof.
  induction rs as [|r rs IH]; [done|].
  simpl. rewrite IH, andb_true_r. by destruct r.
Qed.

(** X10. Without valid credentials nothing can be changed. Starting
    from a state with no open session: (1) any sequence of requests in
    which every login is one that no entry of the credential list
    matches leaves the state, session store and catalog, exactly as it
    was; (2) with an empty credential list every sequence of requests,
    whatever it holds, leaves the state exactly as it was. *)
Theorem failed_logins_change_nothing (teachers : list Teacher)
    (rs : list Request) (st : Server) :
  sessions st = ∅ →
  (forallb (login_fails teachers) rs = true → serve teachers rs st = st)
  ∧ serve [] rs st = st.
Proof.
  intros Hempty. split.
  - intros Hall. by apply serve_no_session.
  - apply serve_no_session; [apply login_fails_no_teachers | done].
Qed.

Lemma failed_logins_change_nothing_witness :
  serve demo_teachers
    [PostLogin (mkLoginRequest "staff" "guess") "tok-9";
     PostSignup (Some "tok-9") "Chess Club" "new@mergington.edu";
     DeleteUnregister None "Chess Club" "michael@mergington.edu";
     PostLogout (Some "tok-9")]
    server_init
  = server_init
  ∧ serve [] demo_requests server_init = server_init.
Proof.
  split.
  - refine (proj1 (failed_logins_change_nothing demo_teachers
                     [PostLogin (mkLoginRequest "staff" "guess") "tok-9";
                      PostSignup (Some "tok-9") "Chess Club" "new@mergington.edu";
                      DeleteUnregister None "Chess Club" "michael@mergington.edu";
                      PostLogout (Some "tok-9")]
                     server_init _) _).
    + reflexivity.
    + vm_compute. reflexivity.
  - refine (proj2 (failed_logins_change_nothing demo_teachers demo_requests
                     server_init _)).
    reflexivity.
Defined.

(** ** How signup and unregister compose *)

Lemma signup_for_activity_ok (activity_name email user : string) (st : Server)
    (a : Activity) :
  activities st !! activity_name = Some a →
  email ∉ participants a →
  signup_for_activity activity_name email user st
  = (set_activities st
       (<[activity_name :=
            with_participants a (list_append (participants a) email)]>
          (activities st)),
     Return (mkResponse
               (Message ("Signed up " +:+ email +:+ " for " +:+ activity_name))
               None)).
Proof.
  intros Ha Hnot. unfold signup_for_activity. rewrite Ha.
  by rewrite (proj2 (list_contains_false _ _) Hnot).
Qed.

Lemma unregister_from_activity_ok (activity_name email user : string)
    (st : Server) (a : Activity) (ps : list string) :
  activities st !! activity_name = Some a →
  list_remove_first email (participants a) = Some ps →
  unregister_from_activity activity_name email user st
  = (set_activities st
       (<[activity_name := with_participants a ps]> (activities st)),
     Return (mkResponse
               (Message ("Unregistered " +:+ email +:+ " from "
                         +:+ activity_name)) None)).
Proof.
  intros Ha Hr. unfold unregister_from_activity. rewrite Ha.
  assert (email ∈ participants a) as Hin.
  { destruct (decide (email ∈ participants a)) as [|Hn]; [done|].
    apply list_remove_first_None in Hn. congruence. }
  rewrite (proj2 (list_contains_true _ _) Hin). simpl. by rewrite Hr.
Qed.

(** On a duplicate-free list, [remove] leaves exactly the other
    elements. *)
Lemma list_remove_first_NoDup_elem (x : string) (l r : list string) :
  NoDup l → list_remove_first x l = Some r →
  (∀ y, y ∈ r ↔ y ∈ l ∧ y ≠ x) ∧ length l = S (length r).
Proof.
  intros Hnd Hr. pose proof (list_remove_first_NoDup _ _ _ Hnd Hr) as [_ Hx].
  apply list_remove_first_Some in Hr as (l1 & l2 & -> & Hl1 & ->). split.
  - intros y. rewrite !elem_of_app, elem_of_cons. split.
    + intros Hy. split; [tauto|]. intros ->. apply Hx. by apply elem_of_app.
    + tauto.
  - rewrite !length_app. simpl. lia.
Qed.

(** X11. Signup is refused the second time: whenever a signup succeeds,
    the same signup repeated right after it raises AlreadyRegistered and
    leaves the state as the first one left it. *)
Theorem signup_twice_rejected (st st1 : Server) (tok : option string)
    (activity_name email : string) (resp : Response) :
  signup_endpoint tok activity_name email st = (st1, Return resp) →
  signup_endpoint tok activity_name email st1 = (st1, Raise AlreadyRegistered).
Proof.
  intros H. apply with_auth_Return_inv in H as (u & Hauth & H).
  apply signup_for_activity_Return in H as (a & Ha & Hnot & ->).
  rewrite (signup_endpoint_authenticated _ _ _ _ u)
    by (rewrite <- Hauth; by apply require_auth_sessions).
  unfold signup_for_activity. cbn [activities set_activities].
  rewrite lookup_insert_eq. cbn [participants with_participants].
  rewrite (proj2 (list_contains_true email (participants a ++ [email]))); [done|].
  apply elem_of_app. right. left.
Qed.

Lemma signup_twice_rejected_witness :
  signup_endpoint (Some "tok-1") "Chess Club" "new@mergington.edu" demo_signed_up
  = (demo_signed_up, Raise AlreadyRegistered).
Proof.
  apply (signup_twice_rejected demo_logged_in demo_signed_up (Some "tok-1")
           "Chess Club" "new@mergington.edu"
           (mkResponse
              (Message "Signed up new@mergington.edu for Chess Club") None)).
  vm_compute. reflexivity.
Defined.

(** X12. On a duplicate-free roster an unregister removes the email for
    good: for an authenticated request on an existing activity whose
    roster lists the email and has no duplicates, the unregister
    succeeds, the roster afterwards holds exactly the other emails and
    is one shorter, and the same unregister repeated right after it
    raises NotRegistered and changes nothing. *)
Theorem unregister_twice_rejected (st : Server) (tok : option string)
    (activity_name email u : string) (a : Activity) :
  require_auth st tok = Return u →
  activities st !! activity_name = Some a →
  email ∈ participants a →
  NoDup (participants a) →
  ∃ st1 ps,
    unregister_endpoint tok activity_name email st
    = (st1, Return (mkResponse
                      (Message ("Unregistered " +:+ email +:+ " from "
                                +:+ activity_name)) None))
    ∧ (participants <$> activities st1 !! activity_name) = Some ps
    ∧ (∀ e, e ∈ ps ↔ e ∈ participants a ∧ e ≠ email)
    ∧ length (participants a) = S (length ps)
    ∧ unregister_endpoint tok activity_name email st1
      = (st1, Raise NotRegistered).
Proof.
  intros Hauth Ha Hin Hnd.
  destruct (list_remove_first_elem _ _ Hin) as (l1 & l2 & _ & _ & Hr).
  destruct (list_remove_first_NoDup_elem _ _ _ Hnd Hr) as [Hmem Hlen].
  rewrite (unregister_endpoint_authenticated _ _ _ _ _ Hauth).
  rewrite (unregister_from_activity_ok _ _ _ _ _ _ Ha Hr).
  eexists _, (l1 ++ l2). split; [reflexivity|].
  cbn [activities set_activities]. rewrite lookup_insert_eq.
  split_and!; [done..|].
  rewrite (unregister_endpoint_authenticated _ _ _ _ u)
    by (rewrite <- Hauth; by apply require_auth_sessions).
  unfold unregister_from_activity. cbn [activities set_activities].
  rewrite lookup_insert_eq. cbn [participants with_participants].
  rewrite (proj2 (list_contains_false email (l1 ++ l2))); [done|].
  intros He. by apply Hmem in He as [_ ?].
Qed.

Lemma unregister_twice_rejected_witness :
  ∃ st1 ps,
    unregister_endpoint (Some "tok-1") "Chess Club" "michael@mergington.edu"
      demo_logged_in
    = (st1, Return (mkResponse
                      (Message ("Unregistered " +:+ "michael@mergington.edu"
                                +:+ " from " +:+ "Chess Club")) None))
    ∧ (participants <$> activities st1 !! "Chess Club") = Some ps
    ∧ (∀ e, e ∈ ps ↔
            e ∈ ["michael@mergington.edu"; "daniel@mergington.edu"]
            ∧ e ≠ "michael@mergington.edu")
    ∧ length ["michael@mergington.edu"; "daniel@mergington.edu"]
      = S (length ps)
    ∧ unregister_endpoint (Some "tok-1") "Chess Club" "michael@mergington.edu"
        st1
      = (st1, Raise NotRegistered).
Proof.
  apply (unregister_twice_rejected demo_logged_in (Some "tok-1") "Chess Club"
           "michael@mergington.edu" "staff"
           (mkActivity "Learn strategies and compete in chess tournaments"
              "Fridays, 3:30 PM - 5:00 PM" 12
              ["michael@mergington.edu"; "daniel@mergington.edu"])).
  - vm_compute. reflexivity.
  - vm_compute. reflexivity.
  - apply (bool_decide_unpack _). vm_compute. reflexivity.
  - apply (bool_decide_unpack _). vm_compute. reflexivity.
Defined.

(** In a duplicate-free list an element is the last one exactly when
    nothing follows its occurrence. *)
Lemma last_NoDup_split (x : string) (l1 l2 : list string) :
  NoDup (l1 ++ x :: l2) → last (l1 ++ x :: l2) = Some x → l2 = [].
Proof.
  intros Hnd Hlast. destruct l2 as [|y l2 _] using rev_ind; [done|].
  exfalso. rewrite app_comm_cons, app_assoc, last_snoc in Hlast.
  injection Hlast as ->.
  apply NoDup_app in Hnd as (_ & _ & Hnd). apply NoDup_cons in Hnd as [Hx _].
  apply Hx, elem_of_app. right. left.
Qed.

(** X13. Unregister followed by signup of the same email puts the email
    back at the end of the roster: for an authenticated request on an
    existing activity whose duplicate-free roster lists the email, both
    calls succeed, the roster afterwards is the old roster without the
    email followed by the email (so a permutation of the old one), and
    the state is the one from before the two calls exactly when the
    email was the last entry of the roster. *)
Theorem unregister_signup_moves_to_end (st : Server) (tok : option string)
    (activity_name email u : string) (a : Activity) :
  require_auth st tok = Return u →
  activities st !! activity_name = Some a →
  email ∈ participants a →
  NoDup (participants a) →
  ∃ st1 st2 ps,
    unregister_endpoint tok activity_name email st
    = (st1, Return (mkResponse
                      (Message ("Unregistered " +:+ email +:+ " from "
                                +:+ activity_name)) None))
    ∧ list_remove_first email (participants a) = Some ps
    ∧ signup_endpoint tok activity_name email st1
      = (st2, Return (mkResponse
                        (Message ("Signed up " +:+ email +:+ " for "
                                  +:+ activity_name)) None))
    ∧ (participants <$> activities st2 !! activity_name) = Some (ps ++ [email])
    ∧ ps ++ [email] ≡ₚ participants a
    ∧ (st2 = st ↔ last (participants a) = Some email).
Proof.
  intros Hauth Ha Hin Hnd.
  destruct (list_remove_first_elem _ _ Hin) as (l1 & l2 & Hsplit & Hl1 & Hr).
  destruct (list_remove_first_NoDup _ _ _ Hnd Hr) as [_ Hnot].
  rewrite (unregister_endpoint_authenticated _ _ _ _ _ Hauth).
  rewrite (unregister_from_activity_ok _ _ _ _ _ _ Ha Hr).
  eexists _, _, (l1 ++ l2). split; [reflexivity|]. split; [done|].
  rewrite (signup_endpoint_authenticated _ _ _ _ u)
    by (rewrite <- Hauth; by apply require_auth_sessions).
  rewrite (signup_for_activity_ok _ _ _ _ (with_participants a (l1 ++ l2)));
    [|by cbn [activities set_activities]; rewrite lookup_insert_eq|done].
  split; [reflexivity|].
  cbn [activities set_activities sessions participants with_participants].
  rewrite insert_insert_eq, lookup_insert_eq. unfold list_append.
  split_and!.
  - done.
  - rewrite Hsplit, <- app_assoc. apply Permutation_app_head.
    symmetry. apply Permutation_cons_append.
  - split.
    + intros Heq. apply (f_equal activities) in Heq. cbn [activities] in Heq.
      assert (Some (with_participants (with_participants a (l1 ++ l2))
                      ((l1 ++ l2) ++ [email])) = Some a) as Hsame.
      { rewrite <- Ha. rewrite <- Heq. cbn [activities set_activities].
        by rewrite lookup_insert_eq. }
      injection Hsame as Hsame. apply (f_equal participants) in Hsame.
      cbn [participants with_participants] in Hsame.
      rewrite <- Hsame. apply last_snoc.
    + intros Hlast. rewrite Hsplit in Hnd, Hlast.
      pose proof (last_NoDup_split _ _ _ Hnd Hlast) as ->.
      rewrite app_nil_r. destruct st as [s c], a as [d sc m ps].
      cbn in *. subst ps. f_equal. by apply insert_id.
Qed.

Lemma unregister_signup_moves_to_end_witness :
  ∃ st1 st2 ps,
    unregister_endpoint (Some "tok-1") "Chess Club" "michael@mergington.edu"
      demo_logged_in
    = (st1, Return (mkResponse
                      (Message ("Unregistered " +:+ "michael@mergington.edu"
                                +:+ " from " +:+ "Chess Club")) None))
    ∧ list_remove_first "michael@mergington.edu"
        ["michael@mergington.edu"; "daniel@mergington.edu"] = Some ps
    ∧ signup_endpoint (Some "tok-1") "Chess Club" "michael@mergington.edu" st1
      = (st2, Return (mkResponse
                        (Message ("Signed up " +:+ "michael@mergington.edu"
                                  +:+ " for " +:+ "Chess Club")) None))
    ∧ (participants <$> activities st2 !! "Chess Club")
      = Some (ps ++ ["michael@mergington.edu"])
    ∧ ps ++ ["michael@mergington.edu"]
      ≡ₚ ["michael@mergington.edu"; "daniel@mergington.edu"]
    ∧ (st2 = demo_logged_in ↔
       last ["michael@mergington.edu"; "daniel@mergington.edu"]
       = Some "michael@mergington.edu").
Proof.
  apply (unregister_signup_moves_to_end demo_logged_in (Some "tok-1")
           "Chess Club" "michael@mergington.edu" "staff"
           (mkActivity "Learn strategies and compete in chess tournaments"
              "Fridays, 3:30 PM - 5:00 PM" 12
              ["michael@mergington.edu"; "daniel@mergington.edu"])).
  - vm_compute. reflexivity.
  - vm_compute. reflexivity.
  - apply (bool_decide_unpack _). vm_compute. reflexivity.
  - apply (bool_decide_unpack _). vm_compute. reflexivity.
Defined.

(** A signup or unregister reads and writes the catalog at the key it
    names only, and reads the session store. *)
Lemma roster_request_shape (teachers : list Teacher) (r : Request) (n : string) :
  roster_target r = Some n →
  ∃ (f : gmap string string → option Activity → option Activity)
    (g : gmap string string → option Activity → outcome Response),
    ∀ s c,
      handle teachers r (mkServer s c)
      = (mkServer s match f s (c !! n) with
                    | Some a' => <[n := a']> c
                    | None => c
                    end,
         g s (c !! n)).
Proof.
  destruct r as [|cr tok|tok|tok| |tok name email|tok name email]; try done;
    intros [= ->].
  - exists (λ s oa,
        match require_auth (mkServer s ∅) tok, oa with
        | Return _, Some a =>
            if list_contains email (participants a) then None
            else Some (with_participants a (list_append (participants a) email))
        | _, _ => None
        end),
      (λ s oa,
        match require_auth (mkServer s ∅) tok with
        | Return u => snd (signup_for_activity n email u (mkServer s (from_option (λ a, {[n := a]}) ∅ oa)))
        | Raise e => Raise e
        end).
    intros s c. cbn [handle]. unfold signup_endpoint, with_auth.
    rewrite (require_auth_sessions (mkServer s ∅) (mkServer s c)) by done.
    destruct (require_auth (mkServer s ∅) tok) as [u|e]; [|done].
    unfold signup_for_activity. cbn [activities].
    destruct (c !! n) as [a|]; cbn [from_option].
    + rewrite lookup_singleton_eq. by destruct (list_contains _ _).
    + by rewrite lookup_empty.
  - exists (λ s oa,
        match require_auth (mkServer s ∅) tok, oa with
        | Return _, Some a =>
            if list_contains email (participants a)
            then with_participants a <$> list_remove_first email (participants a)
            else None
        | _, _ => None
        end),
      (λ s oa,
        match require_auth (mkServer s ∅) tok with
        | Return u => snd (unregister_from_activity n email u (mkServer s (from_option (λ a, {[n := a]}) ∅ oa)))
        | Raise e => Raise e
        end).
    intros s c. cbn [handle]. unfold unregister_endpoint, with_auth.
    rewrite (require_auth_sessions (mkServer s ∅) (mkServer s c)) by done.
    destruct (require_auth (mkServer s ∅) tok) as [u|e]; [|done].
    unfold unregister_from_activity. cbn [activities].
    destruct (c !! n) as [a|]; cbn [from_option].
    + rewrite lookup_singleton_eq.
      destruct (list_contains _ _); [|done]. cbn [negb].
      by destruct (list_remove_first _ _).
    + by rewrite lookup_empty.
Qed.

(** X14. Roster changes on different activities do not interfere: two
    requests, each a signup or an unregister, that name different
    activities lead to the same state in either order, and each gets the
    answer it would have got had it come first. *)
Theorem roster_requests_commute (teachers : list Teacher) (r1 r2 : Request)
    (n1 n2 : string) (st : Server) :
  roster_target r1 = Some n1 →
  roster_target r2 = Some n2 →
  n1 ≠ n2 →
  serve teachers [r1; r2] st = serve teachers [r2; r1] st
  ∧ snd (handle teachers r2 (fst (handle teachers r1 st)))
    = snd (handle teachers r2 st)
  ∧ snd (handle teachers r1 (fst (handle teachers r2 st)))
    = snd (handle teachers r1 st).
Proof.
  intros Hr1 Hr2 Hne.
  destruct (roster_request_shape teachers r1 n1 Hr1) as (f1 & g1 & H1).
  destruct (roster_request_shape teachers r2 n2 Hr2) as (f2 & g2 & H2).
  destruct st as [s c]. cbn [serve].
  rewrite (H1 s c), (H2 s c). cbn [fst]. rewrite H1, H2. cbn [fst snd].
  assert (∀ o, match o with Some a' => <[n1 := a']> c | None => c end !! n2
               = c !! n2) as E12
    by (intros [a'|]; [by rewrite lookup_insert_ne | done]).
  assert (∀ o, match o with Some a' => <[n2 := a']> c | None => c end !! n1
               = c !! n1) as E21
    by (intros [a'|]; [by rewrite lookup_insert_ne | done]).
  rewrite E12, E21. split_and!; [|done..].
  f_equal. destruct (f1 s (c !! n1)), (f2 s (c !! n2)); [|done..].
  by apply insert_insert_ne.
Qed.

Lemma roster_requests_commute_witness :
  serve demo_teachers
    [PostSignup (Some "tok-1") "Chess Club" "new@mergington.edu";
     DeleteUnregister (Some "tok-1") "Math Club" "james@mergington.edu"]
    demo_logged_in
  = serve demo_teachers
      [DeleteUnregister (Some "tok-1") "Math Club" "james@mergington.edu";
       PostSignup (Some "tok-1") "Chess Club" "new@mergington.edu"]
      demo_logged_in
  ∧ snd (handle demo_teachers
           (DeleteUnregister (Some "tok-1") "Math Club" "james@mergington.edu")
           (fst (handle demo_teachers
                   (PostSignup (Some "tok-1") "Chess Club" "new@mergington.edu")
                   demo_logged_in)))
    = snd (handle demo_teachers
             (DeleteUnregister (Some "tok-1") "Math Club" "james@mergington.edu")
             demo_logged_in)
  ∧ snd (handle demo_teachers
           (PostSignup (Some "tok-1") "Chess Club" "new@mergington.edu")
           (fst (handle demo_teachers
                   (DeleteUnregister (Some "tok-1") "Math Club"
                      "james@mergington.edu")
                   demo_logged_in)))
    = snd (handle demo_teachers
             (PostSignup (Some "tok-1") "Chess Club" "new@mergington.edu")
             demo_logged_in).
Proof.
  apply (roster_requests_commute demo_teachers
           (PostSignup (Some "tok-1") "Chess Club" "new@mergington.edu")
           (DeleteUnregister (Some "tok-1") "Math Club" "james@mergington.edu")
           "Chess Club" "Math Club" demo_logged_in).
  - reflexivity.
  - reflexivity.
  - apply (bool_decide_unpack _). vm_compute. reflexivity.
Defined.

(** ** Login and the credential list *)

(** X15. Login does not depend on the order or multiplicity of the
    entries of the credential list: two lists with the same entries give
    the same answer and the same state for every request and drawn
    token, although the loop stops at the first entry that matches. An
    empty list turns every login away. *)
Theorem login_ignores_order (teachers teachers' : list Teacher)
    (credentials : LoginRequest) (tok : string) (st : Server) :
  (∀ teacher, teacher ∈ teachers ↔ teacher ∈ teachers') →
  login teachers credentials tok st = login teachers' credentials tok st
  ∧ login [] credentials tok st = (st, Raise InvalidCredentials).
Proof.
  intros Hsame. split; [|done].
  assert (credentials_match teachers credentials
          ↔ credentials_match teachers' credentials) as Hiff.
  { unfold credentials_match. rewrite !Exists_exists.
    split; intros (t & Hin & H); exists t; (split; [by apply Hsame | done]). }
  destruct (decide (credentials_match teachers credentials)) as [Hm|Hn].
  - rewrite (login_match _ _ _ _ Hm).
    by rewrite (login_match _ _ _ _ (proj1 Hiff Hm)).
  - rewrite (login_no_match _ _ _ _ Hn).
    rewrite (login_no_match teachers'); [done|]. by rewrite <- Hiff.
Qed.

Lemma login_ignores_order_witness :
  login [mkTeacher "staff" "s3cret"; mkTeacher "head" "gr4de"]
    (mkLoginRequest "head" "gr4de") "tok-5" server_init
  = login [mkTeacher "head" "gr4de"; mkTeacher "staff" "s3cret";
           mkTeacher "head" "gr4de"]
      (mkLoginRequest "head" "gr4de") "tok-5" server_init
  ∧ login [] (mkLoginRequest "head" "gr4de") "tok-5" server_init
    = (server_init, Raise InvalidCredentials).
Proof.
  apply (login_ignores_order
           [mkTeacher "staff" "s3cret"; mkTeacher "head" "gr4de"]
           [mkTeacher "head" "gr4de"; mkTeacher "staff" "s3cret";
            mkTeacher "head" "gr4de"]
           (mkLoginRequest "head" "gr4de") "tok-5" server_init).
  intros teacher. rewrite !elem_of_cons, !elem_of_nil. tauto.
Defined.

Lemma handle_session_kept (teachers : list Teacher) (r : Request) (st : Server)
    (t : string) :
  t ∉ drawn_tokens [r] → t ∉ logout_tokens [r] →
  sessions (fst (handle teachers r st)) !! t = sessions st !! t.
Proof.
  intros Hdraw Hout. by_route r; try done.
  - simpl in Hdraw. apply not_elem_of_cons in Hdraw as [Hne _].
    destruct (login_sessions teachers cr tok st) as [-> | ->]; [done|].
    by rewrite lookup_insert_ne.
  - destruct tok as [t'|]; [|done]. simpl in Hout.
    apply not_elem_of_cons in Hout as [Hne _]. by apply logout_other.
  - unfold signup_endpoint.
    apply (with_auth_step _ _ _ (λ s, sessions s !! t = sessions st !! t));
      [done|].
    intros u. by rewrite (proj1 (signup_for_activity_step _ _ _ _)).
  - unfold unregister_endpoint.
    apply (with_auth_step _ _ _ (λ s, sessions s !! t = sessions st !! t));
      [done|].
    intros u. by rewrite (proj1 (unregister_from_activity_step _ _ _ _)).
Qed.

Lemma logout_tokens_cons (r : Request) (rs : list Request) :
  logout_tokens (r :: rs) = logout_tokens [r] ++ logout_tokens rs.
Proof. by destruct r as [| | [?|] | | | |]. Qed.

(** X16. Sessions do not expire and are independent of each other: over
    any sequence of requests among which no logout carries the token and
    no login draws it again, the token resolves to the same user, passes
    or fails the gate and shows in the status endpoint exactly as before,
    whatever other sessions were opened or closed meanwhile. *)
Theorem session_persists (teachers : list Teacher) (rs : list Request)
    (st : Server) (t : string) :
  t ∉ drawn_tokens rs →
  t ∉ logout_tokens rs →
  sessions (serve teachers rs st) !! t = sessions st !! t
  ∧ get_current_user (serve teachers rs st) (Some t)
    = get_current_user st (Some t)
  ∧ require_auth (serve teachers rs st) (Some t) = require_auth st (Some t).
Proof.
  intros Hdraw Hout.
  assert (sessions (serve teachers rs st) !! t = sessions st !! t) as Hkept.
  { revert st. induction rs as [|r rs IH]; intros st; [done|].
    rewrite drawn_tokens_cons in Hdraw. rewrite logout_tokens_cons in Hout.
    apply not_elem_of_app in Hdraw as [Hd1 Hd2].
    apply not_elem_of_app in Hout as [Ho1 Ho2].
    simpl. rewrite (IH Hd2 Ho2). by apply handle_session_kept. }
  assert (get_current_user (serve teachers rs st) (Some t)
          = get_current_user st (Some t)) as Hcur.
  { unfold get_current_user. rewrite Hkept.
    destruct (truthy t); [|done]. cbn [andb].
    assert (bool_decide (t ∈ dom (sessions (serve teachers rs st)))
            = bool_decide (t ∈ dom (sessions st))) as ->; [|done].
    apply bool_decide_ext. by rewrite !elem_of_dom, Hkept. }
  split_and!; [done..|]. unfold require_auth. by rewrite Hcur.
Qed.

Lemma session_persists_witness :
  let rs := [PostLogin (mkLoginRequest "staff" "s3cret") "tok-2";
             PostSignup (Some "tok-2") "Chess Club" "new@mergington.edu";
             PostLogout (Some "tok-2");
             PostLogout None] in
  sessions (serve demo_teachers rs demo_logged_in) !! "tok-1"
  = sessions demo_logged_in !! "tok-1"
  ∧ get_current_user (serve demo_teachers rs demo_logged_in) (Some "tok-1")
    = get_current_user demo_logged_in (Some "tok-1")
  ∧ require_auth (serve demo_teachers rs demo_logged_in) (Some "tok-1")
    = require_auth demo_logged_in (Some "tok-1").
Proof.
  apply (session_persists demo_teachers
           [PostLogin (mkLoginRequest "staff" "s3cret") "tok-2";
            PostSignup (Some "tok-2") "Chess Club" "new@mergington.edu";
            PostLogout (Some "tok-2");
            PostLogout None]
           demo_logged_in "tok-1").
  - apply (bool_decide_unpack _). vm_compute. reflexivity.
  - apply (bool_decide_unpack _). vm_compute. reflexivity.
Defined.
